(** * simple-grafana-table-plugin: the Table component and the thresholds form

    A shallow embedding of [src/components/Table/index.tsx] and
    [src/components/ThresholdsForm.tsx].

    Conventions of the embedding.
    - A JS string is a [string]: a sequence of code units below 256.
    - Grid and data indices, row counts and thresholds are integers of
      JS numbers, modelled as [Z]; pixel sizes are IEEE binary64 numbers,
      modelled as primitive [float]s.
    - A method that reads and writes [this] is a function in the monad
      [M]: it takes the instance and returns an outcome (a value or a
      thrown exception), the instance after the call and the calls made
      on collaborators, in order.
    - Functions of [@grafana/data], [@grafana/ui] and the JS runtime that
      the component calls are fields of the class [Host]. *)

From Stdlib Require Import ZArith Bool Ascii String List Lia Floats.
From stdpp Require Import base option list gmap strings.

Local Open Scope Z_scope.

(** ** JS values shared by both components *)

(** The result of a call: a value, or an exception that propagates. *)
Inductive Outcome (A : Type) : Type :=
| Ret (a : A)
| Throw (msg : string).
Arguments Ret {A} a.
Arguments Throw {A} msg.

Definition is_ret {A} (o : Outcome A) : bool :=
  match o with Ret _ => true | Throw _ => false end.

(** [a[i]] on a JS array: [undefined] out of range. *)
Definition js_index {A} (l : list A) (i : Z) : option A :=
  if i <? 0 then None else l !! Z.to_nat i.

(** [Math.max(a, b)] on two numbers. *)
Definition Math_max (a b : float) : float :=
  if (PrimFloat.is_nan a || PrimFloat.is_nan b)%bool then PrimFloat.nan
  else if PrimFloat.ltb a b then b
  else if PrimFloat.ltb b a then a
  else if (PrimFloat.is_zero a && PrimFloat.get_sign a)%bool then b
  else a.

(** An array length as a number; lengths are below 2^32, where the
    conversion is exact. *)
Definition length_to_number {A} (l : list A) : float :=
  PrimFloat.of_uint63 (Uint63.of_Z (Z.of_nat (length l))).

(** ** ThresholdsForm.tsx *)

Module ThresholdsForm.

(** *** The string methods the handler calls *)

(** [s.split(sep)] for a one-character separator. *)
Fixpoint split (sep : ascii) (s : string) : list string :=
  match s with
  | EmptyString => [EmptyString]
  | String c rest =>
      if Ascii.eqb c sep then EmptyString :: split sep rest
      else match split sep rest with
           | [] => [String c EmptyString]
           | seg :: segs => String c seg :: segs
           end
  end.

(** White space of [trim] and [parseInt] among the code units below 256:
    TAB, LF, VT, FF, CR, SP and NBSP. *)
Definition is_white_space (c : ascii) : bool :=
  let n := nat_of_ascii c in
  ((9 <=? n)%nat && (n <=? 13)%nat) || (n =? 32)%nat || (n =? 160)%nat.

Fixpoint trim_start (s : string) : string :=
  match s with
  | EmptyString => EmptyString
  | String c rest => if is_white_space c then trim_start rest else s
  end.

(** The string without its trailing white space. *)
Fixpoint trim_end (s : string) : string :=
  match s with
  | EmptyString => EmptyString
  | String c rest =>
      match trim_end rest with
      | EmptyString => if is_white_space c then EmptyString else String c EmptyString
      | kept => String c kept
      end
  end.

Definition trim (s : string) : string := trim_end (trim_start s).

Definition digit_value (c : ascii) : option Z :=
  let n := nat_of_ascii c in
  if ((48 <=? n)%nat && (n <=? 57)%nat)%bool then Some (Z.of_nat (n - 48)) else None.

(** The longest prefix of decimal digits, read left to right: [acc] is
    the value of the digits read, [seen] tells whether there was one. *)
Fixpoint parse_digits (s : string) (acc : Z) (seen : bool) : option Z :=
  match s with
  | EmptyString => if seen then Some acc else None
  | String c rest =>
      match digit_value c with
      | Some d => parse_digits rest (10 * acc + d) true
      | None => if seen then Some acc else None
      end
  end.

(** [parseInt(s, 10)]: leading white space is skipped, then an optional
    sign, then the longest run of decimal digits; [None] is [NaN]. The
    integer read is kept as it is: the rounding of a long run of digits
    to a binary64 number is left out. *)
Definition parseInt10 (s : string) : option Z :=
  match trim_start s with
  | String "-" rest => Z.opp <$> parse_digits rest 0 false
  | String "+" rest => parse_digits rest 0 false
  | body => parse_digits body 0 false
  end.

(** *** The component *)

Record Props := {
  thresholds : option (list Z);
  colors : option (list string);
}.

(** The argument of [props.onChange]. *)
Record ChangeData := {
  cd_thresholds : list Z;
  cd_colors : list string;
}.

(** The body of the [for] loop over [splitted], from index [i] on, with
    the array [thresholds] built so far. *)
Fixpoint push_thresholds (fuel : nat) (splitted : list string) (i : Z)
    (thresholds : list Z) : list Z :=
  match fuel with
  | O => thresholds
  | S fuel' =>
      if i <? Z.of_nat (length splitted) then
        match js_index splitted i with
        | Some seg =>
            let num := parseInt10 (trim seg) in
            let num := match num with None => 0 | Some n => n end in
            push_thresholds fuel' splitted (i + 1) (thresholds ++ [num])
        | None => thresholds
        end
      else thresholds
  end.

(** [handleThresholdChange], given [e.target.value]: what [onChange]
    receives. The loop runs at most [splitted.length] times. *)
Definition handleThresholdChange (p : Props) (value : string) : ChangeData :=
  let splitted := split "," value in
  let thresholds := push_thresholds (length splitted) splitted 0 [] in
  {| cd_colors := default [] (colors p); cd_thresholds := thresholds |}.

(** [SelectableValue<string>]: an entry of the colors select. *)
Record SelectableValue := {
  sv_value : option string;
  sv_label : option string;
}.

(** The argument of [props.onChange] as [handleColorsChange] builds it:
    [value as string] is a cast, an item without a value gives [undefined]. *)
Record ColorsChangeData := {
  cc_colors : list (option string);
  cc_thresholds : list Z;
}.

Definition handleColorsChange (p : Props) (item : list SelectableValue) : ColorsChangeData :=
  let colors := map (λ i, sv_value i) item in
  {| cc_colors := colors; cc_thresholds := default [] (thresholds p) |}.

(** The character of a decimal digit. *)
Definition digit_char (d : Z) : ascii := ascii_of_nat (48 + Z.to_nat d).

(** The decimal digits of [n], for [0 <= n]; [fuel] bounds their number. *)
Fixpoint digits (fuel : nat) (n : Z) : string :=
  match fuel with
  | O => EmptyString
  | S fuel' =>
      if n <? 10 then String (digit_char n) EmptyString
      else digits fuel' (n / 10) +:+ String (digit_char (n mod 10)) EmptyString
  end.

(** The decimal notation of an integer: its digits, behind a minus sign
    when it is negative. *)
Definition decimal (n : Z) : string :=
  if n <? 0 then String "-" (digits (S (Z.to_nat (Z.log2 (- n)))) (- n))
  else digits (S (Z.to_nat (Z.log2 n))) n.

(** [Number.isSafeInteger(n)] for an integer [n]: the integers a
    binary64 number holds exactly, with their neighbours. *)
Definition is_safe_integer (n : Z) : bool := Z.abs n <? 2 ^ 53.

(** [String(n)] for an integer [n]: the decimal notation of a safe
    integer. Beyond the safe integers [String(n)] prints the shortest
    digits that name the binary64 number, in exponent notation from
    10^21 on; that part is left out, [None]. *)
Definition number_to_string (n : Z) : option string :=
  if is_safe_integer n then Some (decimal n) else None.

(** [parts.join(sep)] *)
Fixpoint join (sep : string) (parts : list string) : string :=
  match parts with
  | [] => EmptyString
  | [part] => part
  | part :: rest => part +:+ sep +:+ join sep rest
  end.

(** What [render] gives the two fields to show: the [value] of the colors
    select and the [value] of the thresholds field, the latter [None]
    when a threshold is beyond what [number_to_string] covers. *)
Record FormValues := {
  fv_colors : list SelectableValue;
  fv_thresholds : option string;
}.

Definition render (p : Props) : FormValues :=
  let thresholds := default [] (thresholds p) in
  let colors := default [] (colors p) in
  {| fv_colors := map (λ value, {| sv_value := Some value; sv_label := Some value |}) colors;
     fv_thresholds := join ", " <$> mapM number_to_string thresholds |}.

End ThresholdsForm.

(** ** Table/index.tsx *)

(** *** Data model *)

(** The payloads the component passes along without looking inside. *)
Class Payload := {
  Value : Type;        (* an entry of [field.values] *)
  FieldConfig : Type;  (* [field.config] *)
  StyleData : Type;    (* the fields of a [ColumnStyle] besides pattern and alias *)
  GrafanaTheme : Type;
}.

(** An object with its identity: [!==] on two objects compares [addr]. *)
Record Obj (A : Type) := mkObj { addr : positive; obj : A }.
Arguments mkObj {A} addr obj.
Arguments addr {A} o.
Arguments obj {A} o.

(** [x !== y] for two props that hold an object or nothing. *)
Definition ref_changed {A} (x y : option (Obj A)) : bool :=
  match x, y with
  | None, None => false
  | Some a, Some b => negb (Pos.eqb (addr a) (addr b))
  | _, _ => true
  end.

(** [state.sortBy]: [undefined] at first, [null] once a sort was cleared. *)
Inductive SortBy := SortUndefined | SortNull | SortColumn (index : Z).

(** [SortDirectionType] or [undefined]. *)
Inductive SortDirection := DirUndefined | ASC | DESC.

Definition SortBy_eqb (a b : SortBy) : bool :=
  match a, b with
  | SortUndefined, SortUndefined | SortNull, SortNull => true
  | SortColumn i, SortColumn j => i =? j
  | _, _ => false
  end.

Definition SortDirection_eqb (a b : SortDirection) : bool :=
  match a, b with
  | DirUndefined, DirUndefined | ASC, ASC | DESC, DESC => true
  | _, _ => false
  end.

Section DataModel.
Context {P : Payload}.

Record Field := {
  name : string;
  config : FieldConfig;
  values : list Value;
}.

Record DataFrame := {
  fields : option (list Field);  (* [None]: no [fields] property *)
  length_ : Z;                   (* [data.length], the row count *)
}.

Record ColumnStyle := {
  pattern : string;
  alias : option string;
  style_data : StyleData;
}.

Record Props := {
  data : option (Obj DataFrame);
  minColumnWidth : float;
  showHeader : bool;
  fixedHeader : bool;
  fixedColumns : Z;
  styles : option (Obj (list ColumnStyle));
  width : float;
  height : float;
  theme : GrafanaTheme;
}.

Record State := {
  sortBy : SortBy;
  sortDirection : SortDirection;
  state_data : option DataFrame;
}.

(** A cell builder is kept as the call that made it. *)
Inductive TableCellBuilder :=
| simpleCellBuilder
| getCellBuilder (c : FieldConfig) (style : option ColumnStyle) (th : GrafanaTheme).

Record ColumnRenderInfo := {
  header : string;
  cri_width : float;
  builder : TableCellBuilder;
}.

Record DataIndex := {
  column : Z;
  row : Z; (* -1 is the header! *)
}.

(** [CellMeasurerCache]: the measured height and width per grid cell. *)
Record CellSize := { cell_height : float; cell_width : float }.

Record Table := {
  props : Props;
  state : State;
  renderer : list ColumnRenderInfo;
  measurer : gmap (Z * Z) CellSize;
  scrollToTop : bool;
}.

(** What a method may call on its collaborators. *)
Inductive Call :=
| CallClearAll                       (* this.measurer.clearAll() *)
| CallInitColumns                    (* this.initColumns(this.props) *)
| CallSortDataFrame (by_ : SortBy) (reverse : bool)
| CallSetState.

(** What the header cell shows. *)
Record HeaderCell := {
  hc_text : string;
  hc_indicator : option SortDirection; (* <SortIndicator sortDirection=.. /> when present *)
}.

Inductive Cell :=
| CellHeader (h : HeaderCell)
| CellBuilt (b : TableCellBuilder) (value : option Value).

(** <CellMeasurer rowIndex columnIndex> child </CellMeasurer> *)
Record MeasuredCell := {
  mc_rowIndex : Z;
  mc_columnIndex : Z;
  mc_child : Cell;
}.

Record MultiGridProps := {
  scrollToRow : Z;
  scrollToColumn : Z;
  columnCount : Z;
  rowCount : Z;
  grid_width : float;
  grid_height : float;
  fixedColumnCount : Z;
  fixedRowCount : Z;
}.

Inductive Element :=
| MissingFields                       (* <span>Missing Fields</span> *)
| MultiGrid (g : MultiGridProps).

End DataModel.

(** *** The host: @grafana/data and the regular expressions of the runtime *)

Class Host {P : Payload} := {
  RegExp : Type;
  (** [stringToJsRegex(str)]; it throws on a string it cannot compile. *)
  stringToJsRegex : string → Outcome RegExp;
  (** whether [title.match(regex)] is an array, not [null] *)
  str_match : string → RegExp → bool;
  (** [title.replace(regex, replacement)] *)
  str_replace : string → RegExp → string → string;
  (** [sortDataFrame(data, sortIndex, reverse)] *)
  sortDataFrame : option DataFrame → SortBy → bool → Outcome (option DataFrame);
}.

(** *** The component *)

Section TableComponent.
Context {P : Payload} {H : Host}.

(** Methods: the instance goes in and comes out, with the outcome and
    the calls made. After a [Throw] the rest of the method does not run. *)
Definition M (A : Type) : Type := Table → Outcome A * Table * list Call.

#[export] Instance M_ret : MRet M := λ A a t, (Ret a, t, []).

#[export] Instance M_bind : MBind M := λ A B f m t,
  match m t with
  | (Ret a, t', calls) =>
      match f a t' with
      | (o, t'', calls') => (o, t'', calls ++ calls')
      end
  | (Throw e, t', calls) => (Throw e, t', calls)
  end.

Definition this : M Table := λ t, (Ret t, t, []).
Definition lift {A} (o : Outcome A) : M A := λ t, (o, t, []).
Definition call (c : Call) : M unit := λ t, (Ret (), t, [c]).
Definition modify (f : Table → Table) : M unit := λ t, (Ret (), f t, []).
Definition when (b : bool) (m : M unit) : M unit := if b then m else mret ().

Definition set_renderer (r : list ColumnRenderInfo) : M unit :=
  modify (λ t, {| props := props t; state := state t; renderer := r;
                  measurer := measurer t; scrollToTop := scrollToTop t |}).

Definition set_scrollToTop (b : bool) : M unit :=
  modify (λ t, {| props := props t; state := state t; renderer := renderer t;
                  measurer := measurer t; scrollToTop := b |}).

(** [this.measurer.clearAll()] *)
Definition clearAll : M unit :=
  call CallClearAll;;
  modify (λ t, {| props := props t; state := state t; renderer := renderer t;
                  measurer := ∅; scrollToTop := scrollToTop t |}).

(** [this.setState(partial)]: the partial state is merged before the
    next render. *)
Definition setState (merge : State → State) : M unit :=
  call CallSetState;;
  modify (λ t, {| props := props t; state := merge (state t); renderer := renderer t;
                  measurer := measurer t; scrollToTop := scrollToTop t |}).

(** [if (s.alias)]: an alias that is absent or empty is falsy. *)
Definition alias_truthy (a : option string) : option string :=
  match a with
  | Some EmptyString | None => None
  | Some s => Some s
  end.

(** The [for] loop of [initColumns] over [styles], from the rule at hand
    on: the title and the style of the column. *)
Fixpoint findStyle (title : string) (rules : list ColumnStyle)
    : Outcome (string * option ColumnStyle) :=
  match rules with
  | [] => Ret (title, None)
  | s :: rest =>
      match stringToJsRegex (pattern s) with
      | Throw e => Throw e
      | Ret regex =>
          if str_match title regex then
            match alias_truthy (alias s) with
            | Some a => Ret (str_replace title regex a, Some s)
            | None => Ret (title, Some s)
            end
          else findStyle title rest
      end
  end.

(** The callback of [data.fields.map] in [initColumns]. *)
Definition columnInfo (th : GrafanaTheme) (rules : list ColumnStyle)
    (columnWidth : float) (col : Field) : Outcome ColumnRenderInfo :=
  match findStyle (name col) rules with
  | Throw e => Throw e
  | Ret (title, style) =>
      Ret {| header := title; cri_width := columnWidth;
             builder := getCellBuilder (config col) style th |}
  end.

(** [fields.map(f)] for an [f] that may throw: left to right, the first
    exception ends the map. *)
Fixpoint map_outcome {A B} (f : A → Outcome B) (l : list A) : Outcome (list B) :=
  match l with
  | [] => Ret []
  | x :: rest =>
      match f x with
      | Throw e => Throw e
      | Ret y =>
          match map_outcome f rest with
          | Throw e => Throw e
          | Ret ys => Ret (y :: ys)
          end
      end
  end.

(** Given the configuration, setup how each column gets rendered.
    [self] is the instance, read for [this.props.theme]. *)
Definition initColumns (self : Table) (p : Props) : Outcome (list ColumnRenderInfo) :=
  match data p, styles p with
  | Some d, Some rules =>
      match fields (obj d) with
      | Some ((_ :: _) as cols) =>
          let columnWidth :=
            Math_max (PrimFloat.div (width p) (length_to_number cols)) (minColumnWidth p) in
          map_outcome (columnInfo (theme (props self)) (obj rules) columnWidth) cols
      | _ => Ret []
      end
  | _, _ => Ret []
  end.

(** The instance while the constructor runs [initColumns]: [super(props)]
    and [this.state] are set, the other fields not yet. *)
Definition constructing (p : Props) : Table :=
  {| props := p;
     state := {| sortBy := SortUndefined; sortDirection := DirUndefined;
                 state_data := obj <$> data p |};
     renderer := []; measurer := ∅; scrollToTop := false |}.

Definition constructor (p : Props) : Outcome Table :=
  match initColumns (constructing p) p with
  | Throw e => Throw e
  | Ret r =>
      Ret {| props := p; state := state (constructing p); renderer := r;
             measurer := ∅; scrollToTop := false |}
  end.

Definition componentDidUpdate (prevProps : Props) (prevState : State) : M unit :=
  t ← this;
  let p := props t in
  let dataChanged := ref_changed (data p) (data prevProps) in
  let configsChanged :=
    negb (Bool.eqb (showHeader p) (showHeader prevProps))
    || negb (fixedColumns p =? fixedColumns prevProps)
    || negb (Bool.eqb (fixedHeader p) (fixedHeader prevProps)) in
  (* Reset the size cache *)
  when (dataChanged || configsChanged) clearAll;;
  (* Update the renderer if options change *)
  when (dataChanged || ref_changed (styles p) (styles prevProps))
    (call CallInitColumns;;
     r ← lift (initColumns t p);
     set_renderer r);;
  (* Update the data when data or sort changes *)
  when (dataChanged
        || negb (SortBy_eqb (sortBy (state t)) (sortBy prevState))
        || negb (SortDirection_eqb (sortDirection (state t)) (sortDirection prevState)))
    (set_scrollToTop true;;
     let reverse := SortDirection_eqb (sortDirection (state t)) DESC in
     call (CallSortDataFrame (sortBy (state t)) reverse);;
     sorted ← lift (sortDataFrame (obj <$> data p) (sortBy (state t)) reverse);
     setState (λ st, {| sortBy := sortBy st; sortDirection := sortDirection st;
                        state_data := sorted |})).

Definition doSort (columnIndex : Z) : M unit :=
  t ← this;
  let sort := sortBy (state t) in
  let dir := sortDirection (state t) in
  let '(sort, dir) :=
    if negb (SortBy_eqb sort (SortColumn columnIndex)) then (SortColumn columnIndex, DESC)
    else if SortDirection_eqb dir DESC then (sort, ASC)
    else (SortNull, dir) in
  setState (λ st, {| sortBy := sort; sortDirection := dir; state_data := state_data st |}).

(** Converts the grid coordinates to DataFrame coordinates *)
Definition getCellRef (t : Table) (rowIndex columnIndex : Z) : DataIndex :=
  let rowOffset := if showHeader (props t) then -1 else 0 in
  {| column := columnIndex; row := rowIndex + rowOffset |}.

Definition onCellClick (rowIndex columnIndex : Z) : M unit :=
  t ← this;
  let ref := getCellRef t rowIndex columnIndex in
  when (row ref <? 0) (doSort (column ref)).

Definition headerBuilder (t : Table) (rowIndex columnIndex : Z) : Outcome HeaderCell :=
  let ref := getCellRef t rowIndex columnIndex in
  match state_data (state t) with
  | None => Throw "TypeError: data is undefined"
  | Some d =>
      match fields d with
      | None => Throw "TypeError: data.fields is undefined"
      | Some cols =>
          match js_index cols (column ref) with
          | None => Throw "TypeError: col is undefined"
          | Some col =>
              let sorting := SortBy_eqb (sortBy (state t)) (SortColumn (column ref)) in
              Ret {| hc_text := name col;
                     hc_indicator :=
                       if sorting then Some (sortDirection (state t)) else None |}
          end
      end
  end.

Definition getTableCellBuilder (t : Table) (col : Z) : TableCellBuilder :=
  match js_index (renderer t) col with
  | Some render => builder render
  | None => simpleCellBuilder (* the default *)
  end.

Definition cellRenderer (t : Table) (rowIndex columnIndex : Z) : Outcome MeasuredCell :=
  let ref := getCellRef t rowIndex columnIndex in
  let measured child :=
    {| mc_rowIndex := rowIndex; mc_columnIndex := columnIndex; mc_child := child |} in
  if row ref <? 0 then
    match headerBuilder t rowIndex columnIndex with
    | Throw e => Throw e
    | Ret h => Ret (measured (CellHeader h))
    end
  else
    match state_data (state t) with
    | None => Throw "TypeError: data is undefined"
    | Some d =>
        match fields d with
        | None => Throw "TypeError: data.fields is undefined"
        | Some cols =>
            match js_index cols (column ref) with
            | None => Throw "TypeError: data.fields[column] is undefined"
            | Some col =>
                Ret (measured (CellBuilt (getTableCellBuilder t (column ref))
                                         (js_index (values col) (row ref))))
            end
        end
    end.

Definition getColumnWidth (t : Table) (index : Z) : Outcome float :=
  match js_index (renderer t) index with
  | Some render => Ret (cri_width render)
  | None => Throw "TypeError: this.renderer[col.index] is undefined"
  end.

(** [!data || !data.fields || !data.fields.length] on [state.data] *)
Definition columns_of (d : option DataFrame) : option (list Field) :=
  match d with
  | Some d' => match fields d' with
               | Some ((_ :: _) as cols) => Some cols
               | _ => None
               end
  | None => None
  end.

Definition render : M Element :=
  t ← this;
  match state_data (state t), columns_of (state_data (state t)) with
  | Some d, Some cols =>
      let columnCount := Z.of_nat (length cols) in
      let rowCount := length_ d + (if showHeader (props t) then 1 else 0) in
      let fixedColumnCount := Z.min (fixedColumns (props t)) columnCount in
      let fixedRowCount := if showHeader (props t) && fixedHeader (props t) then 1 else 0 in
      (* Called after sort or the data changes *)
      let scrollToRow := if scrollToTop t then 1 else -1 in
      let scrollToColumn := -1 in
      when (scrollToTop t) (set_scrollToTop false);;
      mret (MultiGrid {| scrollToRow := scrollToRow; scrollToColumn := scrollToColumn;
                         columnCount := columnCount; rowCount := rowCount;
                         grid_width := width (props t); grid_height := height (props t);
                         fixedColumnCount := fixedColumnCount;
                         fixedRowCount := fixedRowCount |})
  | _, _ => mret MissingFields (* nothing *)
  end.

End TableComponent.

(** *** A host to run the component on

    The closed examples below run the component on this host: [RegExp]
    for a fragment of the pattern language (characters, [.], [^], [$] and
    a postfix [*]; no flags), and [sortDataFrame] on frames of integers.
    A pattern with a group, a class, a brace, an alternative, an escape,
    [+], [?] or a flag is outside the fragment: the host refuses it, and
    no example uses one. *)

Module JsHost.

Inductive Atom := AnyChar | Char (c : ascii).

Inductive Item :=
| One (a : Atom)       (* a *)
| Star (a : Atom)      (* a*, greedy *)
| InputStart           (* ^ *)
| InputEnd.            (* $ *)

Definition is_line_terminator (c : ascii) : bool :=
  (Ascii.eqb c "010" || Ascii.eqb c "013")%char.

Definition outside_fragment (c : ascii) : bool :=
  existsb (Ascii.eqb c) ["("; ")"; "["; "]"; "{"; "}"; "|"; "\"; "+"; "?"]%char.

(** [new RegExp(source)] on the fragment; [acc] holds the items read,
    last first. A [*] with nothing before it to repeat is a SyntaxError. *)
Fixpoint compile (source : string) (acc : list Item) : Outcome (list Item) :=
  match source with
  | EmptyString => Ret (rev acc)
  | String c rest =>
      if Ascii.eqb c "*" then
        match acc with
        | One a :: acc' => compile rest (Star a :: acc')
        | _ => Throw "SyntaxError: Invalid regular expression: Nothing to repeat"
        end
      else if Ascii.eqb c "^" then compile rest (InputStart :: acc)
      else if Ascii.eqb c "$" then compile rest (InputEnd :: acc)
      else if Ascii.eqb c "." then compile rest (One AnyChar :: acc)
      else if outside_fragment c then Throw "pattern outside the fragment"
      else compile rest (One (Char c) :: acc)
  end.

Definition atom_matches (a : Atom) (c : ascii) : bool :=
  match a with
  | AnyChar => negb (is_line_terminator c)
  | Char c' => Ascii.eqb c c'
  end.

(** Backtracking match of [items] at the head of [s]: what is left of
    [s] after the first match found, a [*] trying the longest run first.
    [at_start] tells whether [s] is the whole input. *)
Fixpoint match_here (items : list Item) (at_start : bool) (s : string) : option string :=
  match items with
  | [] => Some s
  | InputStart :: rest => if at_start then match_here rest at_start s else None
  | InputEnd :: rest =>
      match s with
      | EmptyString => match_here rest at_start s
      | String _ _ => None
      end
  | One a :: rest =>
      match s with
      | String c s' => if atom_matches a c then match_here rest false s' else None
      | EmptyString => None
      end
  | Star a :: rest =>
      (fix star (at_start : bool) (s : string) : option string :=
         match s with
         | String c s' =>
             if atom_matches a c then
               match star false s' with
               | Some remaining => Some remaining
               | None => match_here rest at_start s
               end
             else match_here rest at_start s
         | EmptyString => match_here rest at_start s
         end) at_start s
  end.

Fixpoint take_chars (n : nat) (s : string) : string :=
  match n, s with
  | S n', String c s' => String c (take_chars n' s')
  | _, _ => EmptyString
  end.

(** [regex.exec(s)]: the leftmost match, as (before, matched, after). *)
Fixpoint exec_from (items : list Item) (at_start : bool) (before s : string)
    : option (string * string * string) :=
  match match_here items at_start s with
  | Some after => Some (before, take_chars (String.length s - String.length after) s, after)
  | None =>
      match s with
      | String c s' => exec_from items false (before +:+ String c EmptyString) s'
      | EmptyString => None
      end
  end.

Definition exec (items : list Item) (s : string) := exec_from items true EmptyString s.

(** The replacement text of [replace]: [$$], [$&], [$`] and [$']; a
    pattern of the fragment has no group, so [$1] stands for itself. *)
Fixpoint expand (replacement before matched after : string) : string :=
  match replacement with
  | String "$" (String "$" rest) => String "$" (expand rest before matched after)
  | String "$" (String "&" rest) => matched +:+ expand rest before matched after
  | String "$" (String "`" rest) => before +:+ expand rest before matched after
  | String "$" (String "'" rest) => after +:+ expand rest before matched after
  | String c rest => String c (expand rest before matched after)
  | EmptyString => EmptyString
  end.

(** [g?i?m?y?] *)
Definition strip_flag (f : ascii) (s : string) : string :=
  match s with
  | String c rest => if Ascii.eqb c f then rest else s
  | EmptyString => s
  end.

Definition is_flags (s : string) : bool :=
  match strip_flag "y" (strip_flag "m" (strip_flag "i" (strip_flag "g" s))) with
  | EmptyString => true
  | _ => false
  end.

(** [^/(.*?)/(g?i?m?y?)$] on what follows the first slash: the shortest
    body closed by a slash with only flags behind it. *)
Fixpoint close_slash (body s : string) : option (string * string) :=
  match s with
  | EmptyString => None
  | String c rest =>
      if (Ascii.eqb c "/" && is_flags rest)%bool then Some (body, rest)
      else if is_line_terminator c then None
      else close_slash (body +:+ String c EmptyString) rest
  end.

(** [stringToJsRegex] of @grafana/data: a string that does not start
    with a slash is matched as a whole, [new RegExp('^' + str + '$')];
    one that does must read /body/flags. *)
Definition stringToJsRegex (str : string) : Outcome (list Item) :=
  match str with
  | String "/" rest =>
      match close_slash EmptyString rest with
      | None => Throw "Error: not a valid regular expression"
      | Some (body, EmptyString) => compile body []
      | Some (_, String _ _) => Throw "flags outside the fragment"
      end
  | _ => compile ("^" +:+ str +:+ "$") []
  end.

Definition str_match (title : string) (regex : list Item) : bool :=
  match exec regex title with Some _ => true | None => false end.

Definition str_replace (title : string) (regex : list Item) (replacement : string) : string :=
  match exec regex title with
  | Some (before, matched, after) =>
      before +:+ expand replacement before matched after +:+ after
  | None => title
  end.

#[export] Instance payload : Payload :=
  {| Value := Z; FieldConfig := unit; StyleData := unit; GrafanaTheme := unit |}.

(** Rows in the order of [index]. *)
Definition reorder (index : list nat) (f : Field) : Field :=
  {| name := name f; config := config f;
     values := omap (λ i, values f !! i) index |}.

(** Stable insertion of row [i] among rows sorted by [key]. *)
Fixpoint insert_row (key : nat → Z) (i : nat) (sorted : list nat) : list nat :=
  match sorted with
  | [] => [i]
  | j :: rest => if key i <? key j then i :: sorted else j :: insert_row key i rest
  end.

(** [sortDataFrame]: the frame itself when [sortIndex] names no field,
    else its rows by the values of that field, reversed on demand. *)
Definition sortDataFrame (d : option DataFrame) (sortIndex : SortBy) (reverse : bool)
    : Outcome (option DataFrame) :=
  match d with
  | None => Throw "TypeError: data is undefined"
  | Some frame =>
      match fields frame with
      | None => Throw "TypeError: data.fields is undefined"
      | Some cols =>
          match sortIndex with
          | SortColumn i =>
              match js_index cols i with
              | None => Ret d
              | Some field =>
                  let key r := default 0 (values field !! r) in
                  let rows := seq 0 (Z.to_nat (length_ frame)) in
                  let index := foldr (insert_row key) [] rows in
                  let index := if reverse then rev index else index in
                  Ret (Some {| fields := Some (reorder index <$> cols);
                               length_ := length_ frame |})
              end
          | _ => Ret d
          end
      end
  end.

#[export] Instance host : Host :=
  Build_Host payload (list Item) stringToJsRegex str_match str_replace sortDataFrame.

End JsHost.

(** *** Reading the result of a method *)

Section Results.
Context {P : Payload} {A : Type}.

Definition outcome_of (r : Outcome A * Table * list Call) : Outcome A := r.1.1.
Definition after (r : Outcome A * Table * list Call) : Table := r.1.2.
Definition calls_of (r : Outcome A * Table * list Call) : list Call := r.2.
End Results.

(** ** Notions of the specification *)

(** The threshold a segment of the input stands for: its integer when
    the trimmed segment parses, 0 otherwise. *)
Definition segment_threshold (segment : string) : Z :=
  match ThresholdsForm.parseInt10 (ThresholdsForm.trim segment) with
  | Some n => n
  | None => 0
  end.

Fixpoint count_commas (s : string) : nat :=
  match s with
  | EmptyString => 0%nat
  | String c rest => ((if Ascii.eqb c "," then 1 else 0) + count_commas rest)%nat
  end.


(** The sort status of a column. A sorted column whose direction is not
    ['DESC'] is sorted ascending: [componentDidUpdate] sorts in reverse
    exactly when the direction is ['DESC']. *)
Inductive SortStatus := Unsorted | Descending | Ascending.

Definition next_status (s : SortStatus) : SortStatus :=
  match s with
  | Unsorted => Descending
  | Descending => Ascending
  | Ascending => Unsorted
  end.

Section SpecNotions.
Context {P : Payload}.

Definition status_of (C : Z) (st : State) : SortStatus :=
  match sortBy st with
  | SortColumn i =>
      if i =? C then
        match sortDirection st with DESC => Descending | _ => Ascending end
      else Unsorted
  | _ => Unsorted
  end.

(** A dataset with no columns: no dataset, no fields list, or an empty one. *)
Definition no_columns (d : option DataFrame) : Prop :=
  match d with
  | None => True
  | Some frame => fields frame = None ∨ fields frame = Some []
  end.

(** The tests of [componentDidUpdate], by name. *)
Definition dataChanged (p prevProps : Props) : bool :=
  ref_changed (data p) (data prevProps).

Definition configsChanged (p prevProps : Props) : bool :=
  negb (Bool.eqb (showHeader p) (showHeader prevProps))
  || negb (fixedColumns p =? fixedColumns prevProps)
  || negb (Bool.eqb (fixedHeader p) (fixedHeader prevProps)).

Definition stylesChanged (p prevProps : Props) : bool :=
  ref_changed (styles p) (styles prevProps).

Definition sortChanged (st prevState : State) : bool :=
  negb (SortBy_eqb (sortBy st) (sortBy prevState))
  || negb (SortDirection_eqb (sortDirection st) (sortDirection prevState)).

Definition with_props (t : Table) (p : Props) : Table :=
  {| props := p; state := state t; renderer := renderer t;
     measurer := measurer t; scrollToTop := scrollToTop t |}.
End SpecNotions.

(** Whether every character of [s] passes [ok]. *)
Fixpoint all_chars (ok : ascii → bool) (s : string) : bool :=
  match s with
  | EmptyString => true
  | String c rest => ok c && all_chars ok rest
  end.

(** The characters of a printed integer: the digits and the minus sign. *)
Definition is_number_char (c : ascii) : bool :=
  match ThresholdsForm.digit_value c with
  | Some _ => true
  | None => Ascii.eqb c "-"
  end.

Section ResolverNotions.
Context {P : Payload} {H : Host}.

(** A rule that compiles and does not match the title. *)
Definition passes_over (title : string) (rule : ColumnStyle) : Prop :=
  ∃ regex, stringToJsRegex (pattern rule) = Ret regex ∧ str_match title regex = false.
End ResolverNotions.

(** ** Inputs of the closed examples *)

Module Examples.
Import JsHost.

Definition field (n : string) (vs : list Z) : Field :=
  {| name := n; config := (); values := vs |}.

(** Three columns and three rows. *)
Definition frame : DataFrame :=
  {| fields := Some [field "temp_avg" [1; 3; 2]; field "temp_max" [5; 4; 6];
                     field "status" [0; 1; 0]];
     length_ := 3 |}.

Definition temperature : ColumnStyle :=
  {| pattern := "temp_.*"; alias := Some "Temperature"; style_data := () |}.

(** A rule whose pattern does not compile: nothing to repeat. *)
Definition malformed : ColumnStyle :=
  {| pattern := "*"; alias := None; style_data := () |}.

Definition props_with (d : Obj DataFrame) (rules : Obj (list ColumnStyle))
    (header_shown : bool) : Props :=
  {| data := Some d; minColumnWidth := 150; showHeader := header_shown;
     fixedHeader := true; fixedColumns := 0; styles := Some rules;
     width := 1000; height := 500; theme := () |}.

Definition props0 : Props := props_with (mkObj 1 frame) (mkObj 2 [temperature]) true.

(** The same dataset and rules, the header hidden. *)
Definition props_no_header : Props :=
  props_with (mkObj 1 frame) (mkObj 2 [temperature]) false.

(** A new dataset object, the header hidden. *)
Definition props_new_data : Props :=
  props_with (mkObj 3 frame) (mkObj 2 [temperature]) false.

Definition state0 : State :=
  {| sortBy := SortUndefined; sortDirection := DirUndefined; state_data := Some frame |}.

Definition mounted (p : Props) : Table :=
  match constructor p with
  | Ret t => t
  | Throw _ => constructing p
  end.

Definition table0 : Table := mounted props0.

(** [table0] once column 1 was sorted. *)
Definition table_sorted : Table := after (doSort 1 table0).

(** [table0] with one cell measured. *)
Definition table_measured : Table :=
  {| props := props table0; state := state table0; renderer := renderer table0;
     measurer := {[ (1, 0) := {| cell_height := 30; cell_width := 333 |} ]};
     scrollToTop := false |}.

(** The props of [table0] with a new list of style rules. *)
Definition props_new_styles : Props :=
  props_with (mkObj 1 frame) (mkObj 4 []) true.

(** [table_measured] as it receives [props_new_styles]. *)
Definition table_restyled : Table := with_props table_measured props_new_styles.

(** A rule for the column status alone. *)
Definition status_only : ColumnStyle :=
  {| pattern := "status"; alias := None; style_data := () |}.

(** The rules of [props0] behind a rule that does not compile. *)
Definition props_malformed : Props :=
  props_with (mkObj 1 frame) (mkObj 5 [malformed; temperature]) true.

(** A dataset without columns. *)
Definition props_empty : Props :=
  props_with (mkObj 6 {| fields := Some []; length_ := 0 |}) (mkObj 2 [temperature]) true.

(** A table mounted with the header hidden receives a new dataset:
    React sets the props and calls [componentDidUpdate] with the props
    and the state of before. *)
Definition table_no_header : Table := mounted props_no_header.

Definition updated_no_header : Outcome unit * Table * list Call :=
  componentDidUpdate props_no_header (state table_no_header)
    (with_props table_no_header props_new_data).

(** The props of [table0] without a list of style rules. *)
Definition props_no_styles : Props :=
  {| data := Some (mkObj 1 frame); minColumnWidth := 150; showHeader := true;
     fixedHeader := true; fixedColumns := 0; styles := None;
     width := 1000; height := 500; theme := () |}.

(** A rule for the column temp_avg alone. *)
Definition avg_only : ColumnStyle :=
  {| pattern := "temp_avg"; alias := Some "Average"; style_data := () |}.

(** Rules that resolve the first column and throw on the second. *)
Definition props_late_throw : Props :=
  props_with (mkObj 1 frame) (mkObj 7 [avg_only; malformed]) true.

(** [table0] in a viewport twice as wide. *)
Definition props_resized : Props :=
  {| data := data props0; minColumnWidth := 150; showHeader := true;
     fixedHeader := true; fixedColumns := 0; styles := styles props0;
     width := 2000; height := 500; theme := () |}.

Definition table_resized : Table := with_props table0 props_resized.

(** [table0] as it receives the rules of [props_malformed]. *)
Definition table_bad_styles : Table := with_props table0 props_malformed.

(** A table whose flag is up. *)
Definition table_flagged : Table := after updated_no_header.

(** [table_measured] as it receives a dataset without columns. *)
Definition table_emptied : Table := with_props table_measured props_empty.

Definition form_props : ThresholdsForm.Props :=
  {| ThresholdsForm.thresholds := Some [50; 80; -12; 0; 1200];
     ThresholdsForm.colors := Some ["red"; "#00f"] |}.
End Examples.

(** * Properties *)

(** ** The thresholds form *)

Section ThresholdsFormProofs.
Import ThresholdsForm.




(** No segment holds a comma. *)
Lemma split_no_comma s : Forall (λ seg, count_commas seg = 0%nat) (split "," s).
Proof.
  induction s as [|c s IH]; simpl.
  - by constructor.
  - destruct (Ascii.eqb c ",") eqn:Ec.
    + by constructor.
    + destruct (split "," s) as [|seg segs]; simpl.
      * constructor; [|done]. simpl. by rewrite Ec.
      * inversion IH; subst. constructor; [|done]. simpl. by rewrite Ec.
Qed.

(** The loop pushes the threshold of every segment from [i] on. *)
Lemma push_thresholds_from done_ todo fuel acc :
  (length todo ≤ fuel)%nat →
  push_thresholds fuel (done_ ++ todo) (Z.of_nat (length done_)) acc
  = acc ++ map segment_threshold todo.
Proof.
  revert done_ todo acc.
  induction fuel as [|fuel IH]; intros done_ todo acc Hfuel.
  - destruct todo; simpl in *; [by rewrite app_nil_r | lia].
  - destruct todo as [|seg todo]; simpl.
    + rewrite app_nil_r.
      destruct (Z.ltb_spec (Z.of_nat (length done_)) (Z.of_nat (length done_)));
        [lia | by rewrite app_nil_r].
    + rewrite length_app. simpl.
      destruct (Z.ltb_spec (Z.of_nat (length done_))
                  (Z.of_nat (length done_ + S (length todo)))); [|lia].
      unfold js_index.
      destruct (Z.ltb_spec (Z.of_nat (length done_)) 0); [lia|].
      rewrite Nat2Z.id, list_lookup_middle by done.
      replace (Z.of_nat (length done_) + 1) with (Z.of_nat (length (done_ ++ [seg])))
        by (rewrite length_app; simpl; lia).
      replace (done_ ++ seg :: todo) with ((done_ ++ [seg]) ++ todo)
        by (by rewrite <- app_assoc).
      rewrite IH by (simpl in Hfuel; lia).
      by rewrite <- app_assoc.
Qed.


Example handleThresholdChange_run :
  handleThresholdChange {| thresholds := None; colors := Some ["red"; "#00f"] |}
    "50, 80,abc, -12px,, 1.5 "
  = {| cd_thresholds := [50; 80; 0; -12; 0; 1]; cd_colors := ["red"; "#00f"] |}.
Proof. reflexivity. Qed.

End ThresholdsFormProofs.

(** ** The table *)

(** Runs a method to its result: the binds and the primitive actions of
    [M] are unfolded and computed. *)
Ltac run_method :=
  unfold outcome_of, after, calls_of;
  unfold setState, clearAll, set_renderer, set_scrollToTop, when, call, modify, lift, this;
  unfold mbind, M_bind, mret, M_ret;
  simpl.

Section CoordinateMapper.
Context {P : Payload}.

(** C6: with the header shown the data row is the grid row minus one, so
    the header, grid row 0, is data row -1; with the header hidden the
    data row is the grid row; the column index is kept in both cases. *)
Theorem getCellRef_spec (t : Table) (rowIndex columnIndex : Z) :
  column (getCellRef t rowIndex columnIndex) = columnIndex
  ∧ row (getCellRef t rowIndex columnIndex)
    = (if showHeader (props t) then rowIndex - 1 else rowIndex)
  ∧ row (getCellRef t 0 columnIndex) = (if showHeader (props t) then -1 else 0).
Proof.
  unfold getCellRef; simpl.
  destruct (showHeader (props t)); repeat split; lia.
Qed.

(** A grid row is the header exactly when the header is shown and the
    row is at or before 0. *)
Lemma getCellRef_header (t : Table) (rowIndex columnIndex : Z) :
  0 ≤ rowIndex →
  (row (getCellRef t rowIndex columnIndex) <? 0) = (showHeader (props t) && (rowIndex =? 0)).
Proof.
  intros Hrow. unfold getCellRef; simpl.
  destruct (showHeader (props t)); simpl;
    destruct (Z.ltb_spec (rowIndex + -1) 0), (Z.ltb_spec (rowIndex + 0) 0),
      (Z.eqb_spec rowIndex 0); lia || done.
Qed.
End CoordinateMapper.

Section SortController.
Context {P : Payload} {H : Host}.

Lemma SortBy_eqb_eq a b : SortBy_eqb a b = true ↔ a = b.
Proof.
  destruct a, b; simpl; try (split; (done || discriminate)).
  rewrite Z.eqb_eq. split; [by intros -> | by intros [= ->]].
Qed.

Lemma SortDirection_eqb_eq a b : SortDirection_eqb a b = true ↔ a = b.
Proof. destruct a, b; simpl; split; done || discriminate. Qed.

(** [doSort] returns, calls [setState] once and touches the sort state only. *)
Lemma doSort_runs (t : Table) (C : Z) :
  outcome_of (doSort C t) = Ret ()
  ∧ calls_of (doSort C t) = [CallSetState]
  ∧ props (after (doSort C t)) = props t
  ∧ renderer (after (doSort C t)) = renderer t
  ∧ measurer (after (doSort C t)) = measurer t
  ∧ scrollToTop (after (doSort C t)) = scrollToTop t
  ∧ state_data (state (after (doSort C t))) = state_data (state t).
Proof.
  unfold doSort. run_method.
  destruct (negb _); [|destruct (SortDirection_eqb _ _)]; simpl; done.
Qed.

(** The sort state after [doSort], case by case as the source has them. *)
Lemma doSort_state (t : Table) (C : Z) :
  let st := state t in
  let st' := state (after (doSort C t)) in
  (sortBy st ≠ SortColumn C → sortBy st' = SortColumn C ∧ sortDirection st' = DESC)
  ∧ (sortBy st = SortColumn C → sortDirection st = DESC →
     sortBy st' = SortColumn C ∧ sortDirection st' = ASC)
  ∧ (sortBy st = SortColumn C → sortDirection st ≠ DESC →
     sortBy st' = SortNull ∧ sortDirection st' = sortDirection st).
Proof.
  unfold doSort. run_method.
  destruct (SortBy_eqb (sortBy (state t)) (SortColumn C)) eqn:Eby; simpl.
  - apply SortBy_eqb_eq in Eby.
    destruct (SortDirection_eqb (sortDirection (state t)) DESC) eqn:Edir; simpl.
    + apply SortDirection_eqb_eq in Edir. repeat split; done.
    + assert (sortDirection (state t) ≠ DESC)
        by (intros E; apply SortDirection_eqb_eq in E; congruence).
      repeat split; done.
  - assert (sortBy (state t) ≠ SortColumn C)
      by (intros E; apply SortBy_eqb_eq in E; congruence).
    repeat split; done.
Qed.

(** C2: an activation of the header of column [C] moves the status of
    [C] one step along Unsorted, Descending, Ascending and back to
    Unsorted, from any sort state; an activation of another column [D]
    while [C] is sorted makes [D] the sorted column, descending, and
    leaves [C] unsorted; and no two columns are sorted at once. *)
Theorem doSort_cycle (t : Table) (C D : Z) :
  status_of C (state (after (doSort C t))) = next_status (status_of C (state t))
  ∧ (D ≠ C → status_of C (state t) ≠ Unsorted →
     sortBy (state (after (doSort D t))) = SortColumn D
     ∧ sortDirection (state (after (doSort D t))) = DESC
     ∧ status_of D (state (after (doSort D t))) = Descending
     ∧ status_of C (state (after (doSort D t))) = Unsorted)
  ∧ (status_of C (state t) ≠ Unsorted → status_of D (state t) ≠ Unsorted → C = D).
Proof.
  split; [|split].
  - destruct (doSort_state t C) as (Hother & Hdesc & Hasc). simpl in *.
    unfold status_of in *.
    destruct (sortBy (state t)) as [| |i] eqn:Eby.
    + destruct Hother as [-> ->]; [done|]. by rewrite Z.eqb_refl.
    + destruct Hother as [-> ->]; [done|]. by rewrite Z.eqb_refl.
    + destruct (Z.eqb_spec i C) as [->|Hne].
      * destruct (sortDirection (state t)) eqn:Edir.
        -- destruct Hasc as [-> _]; done.
        -- destruct Hasc as [-> _]; done.
        -- destruct Hdesc as [-> ->]; [done..|]. by rewrite Z.eqb_refl.
      * destruct Hother as [-> ->]; [congruence|]. by rewrite Z.eqb_refl.
  - intros Hne Hsorted.
    destruct (doSort_state t D) as (Hother & _). simpl in *.
    unfold status_of in *.
    destruct (sortBy (state t)) as [| |i] eqn:Eby; [done..|].
    destruct (Z.eqb_spec i C) as [->|]; [|done].
    destruct Hother as [-> ->]; [congruence|].
    rewrite Z.eqb_refl. destruct (Z.eqb_spec D C); done.
  - unfold status_of.
    destruct (sortBy (state t)) as [| |i]; [done..|].
    destruct (Z.eqb_spec i C), (Z.eqb_spec i D); congruence.
Qed.

(** From a state in which [C] is not the sorted column, four activations
    of [C] give descending, ascending, no sort (the sort column is
    [null]), and descending again. *)
Lemma doSort_four_times (t : Table) (C : Z) :
  sortBy (state t) ≠ SortColumn C →
  let t1 := after (doSort C t) in
  let t2 := after (doSort C t1) in
  let t3 := after (doSort C t2) in
  let t4 := after (doSort C t3) in
  (sortBy (state t1), sortDirection (state t1)) = (SortColumn C, DESC)
  ∧ (sortBy (state t2), sortDirection (state t2)) = (SortColumn C, ASC)
  ∧ (sortBy (state t3), sortDirection (state t3)) = (SortNull, ASC)
  ∧ (sortBy (state t4), sortDirection (state t4)) = (SortColumn C, DESC).
Proof.
  intros Hne. cbv zeta.
  destruct (doSort_state t C) as (H1 & _). cbv zeta in H1.
  destruct (H1 Hne) as [E1 E1'].
  destruct (doSort_state (after (doSort C t)) C) as (_ & H2 & _). cbv zeta in H2.
  destruct (H2 E1 E1') as [E2 E2'].
  destruct (doSort_state (after (doSort C (after (doSort C t)))) C) as (_ & _ & H3).
  cbv zeta in H3.
  destruct (H3 E2) as [E3 E3']; [rewrite E2'; discriminate|].
  destruct (doSort_state
              (after (doSort C (after (doSort C (after (doSort C t)))))) C) as (H4 & _).
  cbv zeta in H4.
  destruct H4 as [E4 E4']; [rewrite E3; discriminate|].
  rewrite E1, E1', E2, E2', E3, E3', E4, E4', E2'. done.
Qed.

(** A click on a cell sorts exactly when the cell is in the header row. *)
Lemma onCellClick_header (t : Table) (C : Z) :
  showHeader (props t) = true → onCellClick 0 C t = doSort C t.
Proof.
  intros Hshow. unfold onCellClick. run_method.
  unfold getCellRef. rewrite Hshow. simpl.
  by destruct (doSort C t) as [[[] ?] ?]; rewrite ?app_nil_l.
Qed.
End SortController.

(** Runs [componentDidUpdate pp ps t] by cases: on each of its tests, then
    on what [initColumns] and [sortDataFrame] return. *)
Ltac run_update t pp ps :=
  unfold componentDidUpdate; run_method;
  fold (dataChanged (props t) pp);
  fold (configsChanged (props t) pp);
  fold (stylesChanged (props t) pp);
  destruct (dataChanged (props t) pp) eqn:?Edata; simpl;
  fold (sortChanged (state t) ps);
  destruct (configsChanged (props t) pp) eqn:?Econfigs;
  destruct (stylesChanged (props t) pp) eqn:?Estyles;
  destruct (sortChanged (state t) ps) eqn:?Esort; simpl;
  try (destruct (initColumns t (props t)) eqn:?Einit; simpl);
  try (destruct (sortDataFrame (obj <$> data (props t)) (sortBy (state t))
                   (SortDirection_eqb (sortDirection (state t)) DESC)) eqn:?Esorted;
       simpl).

Section RenderCoordinator.
Context {P : Payload} {H : Host}.

Lemma configsChanged_true (p prevProps : Props) :
  configsChanged p prevProps = true
  ↔ showHeader p ≠ showHeader prevProps
    ∨ fixedColumns p ≠ fixedColumns prevProps
    ∨ fixedHeader p ≠ fixedHeader prevProps.
Proof.
  unfold configsChanged.
  destruct (showHeader p), (showHeader prevProps), (fixedHeader p), (fixedHeader prevProps),
    (Z.eqb_spec (fixedColumns p) (fixedColumns prevProps)); simpl;
    intuition congruence.
Qed.

Lemma configsChanged_false (p prevProps : Props) :
  configsChanged p prevProps = false
  ↔ showHeader p = showHeader prevProps
    ∧ fixedColumns p = fixedColumns prevProps
    ∧ fixedHeader p = fixedHeader prevProps.
Proof.
  unfold configsChanged.
  destruct (showHeader p), (showHeader prevProps), (fixedHeader p), (fixedHeader prevProps),
    (Z.eqb_spec (fixedColumns p) (fixedColumns prevProps)); simpl;
    intuition congruence.
Qed.

Lemma sortChanged_false (st prevState : State) :
  sortChanged st prevState = false
  ↔ sortBy st = sortBy prevState ∧ sortDirection st = sortDirection prevState.
Proof.
  unfold sortChanged.
  destruct (SortBy_eqb (sortBy st) (sortBy prevState)) eqn:Eby,
    (SortDirection_eqb (sortDirection st) (sortDirection prevState)) eqn:Edir; simpl.
  - apply SortBy_eqb_eq in Eby. apply SortDirection_eqb_eq in Edir. done.
  - split; [done|]. intros [_ E]. apply SortDirection_eqb_eq in E. congruence.
  - split; [done|]. intros [E _]. apply SortBy_eqb_eq in E. congruence.
  - split; [done|]. intros [E _]. apply SortBy_eqb_eq in E. congruence.
Qed.

(** The cache after an update: empty when the data or the configuration
    changed, as it was otherwise. *)
Lemma componentDidUpdate_measurer (t : Table) (pp : Props) (ps : State) :
  measurer (after (componentDidUpdate pp ps t))
  = if dataChanged (props t) pp || configsChanged (props t) pp then ∅ else measurer t.
Proof. run_update t pp ps; done. Qed.

Lemma componentDidUpdate_clearAll (t : Table) (pp : Props) (ps : State) :
  CallClearAll ∈ calls_of (componentDidUpdate pp ps t)
  ↔ dataChanged (props t) pp || configsChanged (props t) pp = true.
Proof.
  run_update t pp ps;
    rewrite ?elem_of_cons, ?elem_of_nil; intuition congruence.
Qed.

(** C3: an update clears the measurement cache, all of it, exactly when
    the dataset reference changed or one of showHeader, fixedColumns and
    fixedHeader changed; when only the style rules changed, the column
    layout is rebuilt and every cached measurement is as it was. *)
Theorem cache_cleared_iff (t : Table) (pp : Props) (ps : State) :
  (CallClearAll ∈ calls_of (componentDidUpdate pp ps t)
   ↔ ref_changed (data (props t)) (data pp) = true
     ∨ showHeader (props t) ≠ showHeader pp
     ∨ fixedColumns (props t) ≠ fixedColumns pp
     ∨ fixedHeader (props t) ≠ fixedHeader pp)
  ∧ (CallClearAll ∈ calls_of (componentDidUpdate pp ps t) →
     measurer (after (componentDidUpdate pp ps t)) = ∅)
  ∧ (CallClearAll ∉ calls_of (componentDidUpdate pp ps t) →
     measurer (after (componentDidUpdate pp ps t)) = measurer t)
  ∧ (ref_changed (styles (props t)) (styles pp) = true →
     ref_changed (data (props t)) (data pp) = false →
     showHeader (props t) = showHeader pp →
     fixedColumns (props t) = fixedColumns pp →
     fixedHeader (props t) = fixedHeader pp →
     CallInitColumns ∈ calls_of (componentDidUpdate pp ps t)
     ∧ (∀ layout, initColumns t (props t) = Ret layout →
        renderer (after (componentDidUpdate pp ps t)) = layout)
     ∧ (CallClearAll ∉ calls_of (componentDidUpdate pp ps t))
     ∧ ∀ cell, measurer (after (componentDidUpdate pp ps t)) !! cell = measurer t !! cell).
Proof.
  pose proof (componentDidUpdate_clearAll t pp ps) as Hclear.
  pose proof (componentDidUpdate_measurer t pp ps) as Hcache.
  pose proof (configsChanged_true (props t) pp) as Hconfigs.
  fold (dataChanged (props t) pp).
  split; [|split; [|split]].
  - rewrite Hclear, orb_true_iff, Hconfigs. done.
  - intros Hin. apply Hclear in Hin. by rewrite Hcache, Hin.
  - intros Hnotin. rewrite Hcache.
    destruct (dataChanged (props t) pp || configsChanged (props t) pp) eqn:E; [|done].
    by destruct Hnotin; apply Hclear.
  - intros Hstyles Hdata Hshow Hcolumns Hheader.
    assert (configsChanged (props t) pp = false) as Hno
      by (by apply configsChanged_false).
    assert (CallClearAll ∉ calls_of (componentDidUpdate pp ps t)) as Hnotin.
    { rewrite Hclear, Hdata, Hno. done. }
    split; [|split; [|split; [done|]]].
    + clear Hclear Hcache. fold (stylesChanged (props t) pp) in Hstyles.
      run_update t pp ps; try congruence;
        rewrite ?elem_of_cons, ?elem_of_nil; intuition congruence.
    + intros layout Hlayout. clear Hclear Hcache Hnotin.
      fold (stylesChanged (props t) pp) in Hstyles.
      run_update t pp ps; congruence.
    + intros cell. by rewrite Hcache, Hdata, Hno.
Qed.

(** An update in which the dataset reference, the style-rule-list
    reference, the sort column and direction, and showHeader,
    fixedColumns and fixedHeader are all unchanged does nothing: no call
    is made and the instance is as it was. *)
Theorem unchanged_update_is_idle (t : Table) (pp : Props) (ps : State) :
  ref_changed (data (props t)) (data pp) = false →
  ref_changed (styles (props t)) (styles pp) = false →
  sortBy (state t) = sortBy ps →
  sortDirection (state t) = sortDirection ps →
  showHeader (props t) = showHeader pp →
  fixedColumns (props t) = fixedColumns pp →
  fixedHeader (props t) = fixedHeader pp →
  componentDidUpdate pp ps t = (Ret (), t, []).
Proof.
  intros Hdata Hstyles Hby Hdir Hshow Hcolumns Hheader.
  assert (configsChanged (props t) pp = false) by (by apply configsChanged_false).
  assert (sortChanged (state t) ps = false) by (by apply sortChanged_false).
  fold (dataChanged (props t) pp) in Hdata.
  fold (stylesChanged (props t) pp) in Hstyles.
  run_update t pp ps; congruence.
Qed.

(** The third test: the data is sorted again, and the flag raised,
    exactly when the dataset or the sort state changed, provided the
    layout was rebuilt without an exception. *)
Lemma componentDidUpdate_scrollToTop (t : Table) (pp : Props) (ps : State) :
  is_ret (initColumns t (props t)) = true →
  scrollToTop (after (componentDidUpdate pp ps t))
  = (dataChanged (props t) pp || sortChanged (state t) ps || scrollToTop t).
Proof.
  intros Hinit. run_update t pp ps; simpl in *; try done; by destruct (scrollToTop t).
Qed.
End RenderCoordinator.

Section ColumnLayout.
Context {P : Payload} {H : Host}.

Lemma map_outcome_Forall {A B} (f : A → Outcome B) (Q : B → Prop) (l : list A) (r : list B) :
  (∀ x y, f x = Ret y → Q y) → map_outcome f l = Ret r → Forall Q r.
Proof.
  intros Hf. revert r. induction l as [|x l IH]; intros r; simpl.
  - intros [= <-]. constructor.
  - destruct (f x) eqn:Ex; [|discriminate].
    destruct (map_outcome f l); [|discriminate].
    intros [= <-]. constructor; eauto.
Qed.

Lemma map_outcome_length {A B} (f : A → Outcome B) (l : list A) (r : list B) :
  map_outcome f l = Ret r → length r = length l.
Proof.
  revert r. induction l as [|x l IH]; intros r; simpl.
  - by intros [= <-].
  - destruct (f x); [|discriminate].
    destruct (map_outcome f l); [|discriminate].
    intros [= <-]. simpl. by rewrite (IH _ eq_refl).
Qed.

(** The map stops at the first column whose callback throws. *)
Lemma map_outcome_throw {A B} (f : A → Outcome B) (done_ : list A) (x : A) (rest : list A) e :
  (∀ y, y ∈ done_ → is_ret (f y) = true) → f x = Throw e →
  map_outcome f (done_ ++ x :: rest) = Throw e.
Proof.
  intros Hdone Hx. induction done_ as [|y done_ IH]; simpl.
  - by rewrite Hx.
  - pose proof (Hdone y ltac:(left)) as Hy.
    destruct (f y); [|discriminate].
    rewrite IH; [done|]. intros z Hz. apply Hdone. by right.
Qed.

Lemma columnInfo_width th rules w col info :
  columnInfo th rules w col = Ret info → cri_width info = w.
Proof.
  unfold columnInfo. destruct (findStyle (name col) rules) as [[title style]|]; [|discriminate].
  by intros [= <-].
Qed.

(** C7: for a dataset of N columns, N not 0, a viewport width W and a
    minimum column width M, every column of the layout that
    [initColumns] builds has the width max(W / N, M), and that is the
    width [getColumnWidth] gives for it; with a style list there is one
    entry per column. *)
Theorem column_width_policy (self t : Table) (p : Props) (d : Obj DataFrame)
    (cols : list Field) (layout : list ColumnRenderInfo) :
  data p = Some d → fields (obj d) = Some cols → cols ≠ [] →
  initColumns self p = Ret layout →
  renderer t = layout →
  let w := Math_max (PrimFloat.div (width p) (length_to_number cols)) (minColumnWidth p) in
  Forall (λ info, cri_width info = w) layout
  ∧ (∀ i, 0 ≤ i < Z.of_nat (length layout) → getColumnWidth t i = Ret w)
  ∧ (styles p ≠ None → length layout = length cols).
Proof.
  intros Hdata Hfields Hcols Hinit Hrenderer w.
  unfold initColumns in Hinit. rewrite Hdata in Hinit.
  assert (Forall (λ info, cri_width info = w) layout) as Hall.
  { destruct (styles p) as [rules|]; [|injection Hinit as <-; constructor].
    rewrite Hfields in Hinit. destruct cols as [|c cols]; [done|].
    eapply map_outcome_Forall; [|exact Hinit].
    intros x y. apply columnInfo_width. }
  split; [done|split].
  - intros i Hi. unfold getColumnWidth, js_index.
    destruct (Z.ltb_spec i 0); [lia|].
    rewrite Hrenderer.
    destruct (layout !! Z.to_nat i) as [info|] eqn:Ei.
    + f_equal. rewrite Forall_forall in Hall. apply Hall.
      by eapply list_elem_of_lookup_2.
    + apply lookup_ge_None in Ei. lia.
  - intros Hstyles. destruct (styles p) as [rules|]; [|done].
    rewrite Hfields in Hinit. destruct cols as [|c cols]; [done|].
    by eapply map_outcome_length.
Qed.

(** A dataset with no columns, its fields list empty or missing, is
    rendered as the "Missing Fields" placeholder: [render] returns it
    without an exception, makes no call and leaves the layout, the cache
    and the rest of the instance as they were; [initColumns] builds no
    layout for it, and a table constructed on it renders the placeholder. *)
Theorem no_columns_placeholder (t self : Table) (p : Props) :
  (no_columns (state_data (state t)) → render t = (Ret MissingFields, t, []))
  ∧ (no_columns (obj <$> data p) →
     initColumns self p = Ret []
     ∧ ∃ t0, constructor p = Ret t0
             ∧ renderer t0 = [] ∧ measurer t0 = ∅
             ∧ render t0 = (Ret MissingFields, t0, [])).
Proof.
  assert (∀ t', no_columns (state_data (state t')) →
                render t' = (Ret MissingFields, t', [])) as Hrender.
  { intros t' Hno. unfold render. run_method. unfold no_columns in Hno.
    destruct (state_data (state t')) as [frame|]; simpl; [|done].
    destruct Hno as [-> | ->]; done. }
  assert (∀ self', no_columns (obj <$> data p) → initColumns self' p = Ret []) as Hinit.
  { intros self' Hno. unfold initColumns. unfold no_columns in Hno.
    destruct (data p) as [d|]; simpl in *; [|done].
    destruct (styles p); [|done].
    destruct Hno as [-> | ->]; done. }
  split; [apply Hrender|].
  intros Hno. split; [by apply Hinit|].
  unfold constructor. rewrite (Hinit _ Hno).
  eexists. split; [done|]. split; [done|]. split; [done|].
  by apply Hrender.
Qed.

(** With columns, [render] gives the grid, scrolls to row 1 when the flag
    is up, and lowers the flag. *)
Lemma render_grid (t : Table) (frame : DataFrame) (c : Field) (cols : list Field) :
  state_data (state t) = Some frame → fields frame = Some (c :: cols) →
  ∃ g, outcome_of (render t) = Ret (MultiGrid g)
       ∧ scrollToRow g = (if scrollToTop t then 1 else -1)
       ∧ columnCount g = Z.of_nat (length (c :: cols))
       ∧ rowCount g = length_ frame + (if showHeader (props t) then 1 else 0)
       ∧ scrollToTop (after (render t)) = false
       ∧ measurer (after (render t)) = measurer t
       ∧ renderer (after (render t)) = renderer t
       ∧ state (after (render t)) = state t
       ∧ props (after (render t)) = props t.
Proof.
  intros Hdata Hfields. unfold render. run_method.
  rewrite Hdata. simpl. rewrite Hfields.
  destruct (scrollToTop t) eqn:Eflag; simpl; eexists; repeat split; done.
Qed.

(** The flag is used once: the render after the one that scrolled does
    not scroll. *)
Lemma render_twice (t : Table) (frame : DataFrame) (c : Field) (cols : list Field) :
  state_data (state t) = Some frame → fields frame = Some (c :: cols) →
  ∃ g, outcome_of (render (after (render t))) = Ret (MultiGrid g) ∧ scrollToRow g = -1.
Proof.
  intros Hdata Hfields.
  destruct (render_grid t frame c cols Hdata Hfields)
    as (g & _ & _ & _ & _ & Hflag & _ & _ & Hstate & _).
  destruct (render_grid (after (render t)) frame c cols) as (g' & Hg' & Hrow & _).
  - by rewrite Hstate.
  - done.
  - exists g'. by rewrite Hflag in Hrow.
Qed.
End ColumnLayout.

Section StyleResolver.
Context {P : Payload} {H : Host}.

Lemma findStyle_passes_over title before rest :
  Forall (passes_over title) before →
  findStyle title (before ++ rest) = findStyle title rest.
Proof.
  induction 1 as [|rule before (regex & Hregex & Hmatch) _ IH]; simpl; [done|].
  by rewrite Hregex, Hmatch.
Qed.

(** What the header cell shows: the name of the field, and the sort
    indicator exactly for the sorted column. *)
Lemma headerBuilder_shows (t : Table) (rowIndex columnIndex : Z) (h : HeaderCell) :
  headerBuilder t rowIndex columnIndex = Ret h →
  ∃ frame cols col,
    state_data (state t) = Some frame ∧ fields frame = Some cols
    ∧ js_index cols columnIndex = Some col
    ∧ hc_text h = name col
    ∧ (sortBy (state t) = SortColumn columnIndex →
       hc_indicator h = Some (sortDirection (state t)))
    ∧ (sortBy (state t) ≠ SortColumn columnIndex → hc_indicator h = None).
Proof.
  unfold headerBuilder, getCellRef; simpl.
  destruct (state_data (state t)) as [frame|]; [|discriminate].
  destruct (fields frame) as [cols|] eqn:Efields; [|discriminate].
  destruct (js_index cols columnIndex) as [col|] eqn:Ecol; [|discriminate].
  intros [= <-]. exists frame, cols, col. simpl.
  repeat split; try done.
  - intros E. apply SortBy_eqb_eq in E. by rewrite E.
  - intros Hne.
    destruct (SortBy_eqb (sortBy (state t)) (SortColumn columnIndex)) eqn:E; [|done].
    by apply SortBy_eqb_eq in E.
Qed.

(** C5, amended: the rules are tried in order up to the first match. A
    rule with a malformed pattern that is reached, the rules before it
    compiling and not matching, makes the resolution throw: the
    exception is not caught and the rules behind it are not tried. A
    rule that matches ends the resolution, whatever the rules behind
    it, malformed or not. *)
Theorem findStyle_malformed (title : string) (before : list ColumnStyle)
    (rule : ColumnStyle) (behind : list ColumnStyle) :
  Forall (passes_over title) before →
  (∀ e, stringToJsRegex (pattern rule) = Throw e →
        findStyle title (before ++ rule :: behind) = Throw e)
  ∧ (∀ regex, stringToJsRegex (pattern rule) = Ret regex →
              str_match title regex = true →
              findStyle title (before ++ rule :: behind) = findStyle title [rule]
              ∧ ∃ shown, findStyle title [rule] = Ret (shown, Some rule)).
Proof.
  intros Hbefore. rewrite findStyle_passes_over by done. split.
  - intros e He. simpl. by rewrite He.
  - intros regex Hregex Hmatch. simpl. rewrite Hregex, Hmatch.
    split; [done|]. destruct (alias_truthy (alias rule)); eauto.
Qed.

(** An exception of the resolution of a column leaves [initColumns]. *)
Lemma initColumns_throws (self : Table) (p : Props) (d : Obj DataFrame)
    (rules : Obj (list ColumnStyle)) (col : Field) (cols : list Field) e :
  data p = Some d → styles p = Some rules → fields (obj d) = Some (col :: cols) →
  findStyle (name col) (obj rules) = Throw e →
  initColumns self p = Throw e.
Proof.
  intros Hdata Hstyles Hfields Hthrow. unfold initColumns.
  rewrite Hdata, Hstyles, Hfields. simpl. unfold columnInfo. by rewrite Hthrow.
Qed.
End StyleResolver.

(** ** The component on the host [JsHost] *)

Section OnJsHost.
Import JsHost Examples.

(** C1: on three columns temp_avg, temp_max and status with the rule
    temp_.* of alias Temperature, the layout holds the display titles
    Temperature, Temperature and status, and the header cells show
    temp_avg, temp_max and status: the name of the field, not the
    display title. The sort indicator is in the header of the sorted
    column only. *)
Theorem header_shows_field_name :
  header <$> renderer table0 = ["Temperature"; "Temperature"; "status"]
  ∧ headerBuilder table0 0 0 = Ret {| hc_text := "temp_avg"; hc_indicator := None |}
  ∧ headerBuilder table0 0 1 = Ret {| hc_text := "temp_max"; hc_indicator := None |}
  ∧ headerBuilder table0 0 2 = Ret {| hc_text := "status"; hc_indicator := None |}
  ∧ headerBuilder table_sorted 0 1
    = Ret {| hc_text := "temp_max"; hc_indicator := Some DESC |}
  ∧ headerBuilder table_sorted 0 0 = Ret {| hc_text := "temp_avg"; hc_indicator := None |}.
Proof. vm_compute. repeat split. Qed.

(** C4: with the header hidden, a new dataset raises the flag, the next
    render asks for grid row 1 and lowers the flag, and the render
    after that asks for no row; grid row 1 is data row 1, the second
    row of the data, while the first one is grid row 0. *)
Theorem scroll_to_top_header_hidden :
  outcome_of updated_no_header = Ret ()
  ∧ scrollToTop (after updated_no_header) = true
  ∧ (∃ g, outcome_of (render (after updated_no_header)) = Ret (MultiGrid g)
          ∧ scrollToRow g = 1
          ∧ row (getCellRef (after updated_no_header) (scrollToRow g) 0) = 1)
  ∧ row (getCellRef (after updated_no_header) 0 0) = 0
  ∧ scrollToTop (after (render (after updated_no_header))) = false
  ∧ (∃ g, outcome_of (render (after (render (after updated_no_header))))
          = Ret (MultiGrid g)
          ∧ scrollToRow g = -1).
Proof.
  vm_compute. repeat split; eexists; repeat split.
Qed.

(** C5 as stated fails: behind a rule whose pattern does not compile,
    the rule temp_.* is not tried on temp_avg, which it matches; the
    resolution throws and so does the construction of the table. *)
Lemma malformed_rule_not_skipped :
  is_ret (findStyle "temp_avg" [malformed; temperature]) = false
  ∧ findStyle "temp_avg" [temperature] = Ret ("Temperature", Some temperature)
  ∧ is_ret (constructor props_malformed) = false.
Proof. vm_compute. repeat split. Qed.

(** C9 as stated fails: with the dataset, the style rules and the sort
    state unchanged, hiding the header clears the cache. *)
Lemma idle_update_clears_cache :
  ref_changed (data (props table_measured)) (data props_no_header) = false
  ∧ ref_changed (styles (props table_measured)) (styles props_no_header) = false
  ∧ sortBy (state table_measured) = sortBy state0
  ∧ sortDirection (state table_measured) = sortDirection state0
  ∧ calls_of (componentDidUpdate props_no_header state0 table_measured) = [CallClearAll]
  ∧ measurer table_measured !! (1, 0) = Some {| cell_height := 30; cell_width := 333 |}
  ∧ measurer (after (componentDidUpdate props_no_header state0 table_measured)) !! (1, 0)
    = None.
Proof. vm_compute. repeat split. Qed.

(** Column 1 is sorted and the header of column 2 is activated. *)
Lemma doSort_cycle_witness :
  2 ≠ 1 ∧ status_of 1 (state table_sorted) ≠ Unsorted
  ∧ sortBy (state (after (doSort 2 table_sorted))) = SortColumn 2
  ∧ status_of 1 (state (after (doSort 2 table_sorted))) = Unsorted.
Proof.
  assert (2 ≠ 1) as Hne by lia.
  assert (status_of 1 (state table_sorted) ≠ Unsorted) as Hsorted
    by (vm_compute; discriminate).
  destruct (doSort_cycle table_sorted 1 2) as (_ & Hother & _).
  destruct (Hother Hne Hsorted) as (Hby & _ & _ & Hstatus).
  split; [assumption|]. split; [assumption|]. split; assumption.
Defined.

(** A new list of style rules on a table with a measured cell. *)
Lemma cache_cleared_iff_witness :
  ref_changed (styles (props table_restyled)) (styles props0) = true
  ∧ ref_changed (data (props table_restyled)) (data props0) = false
  ∧ CallInitColumns ∈ calls_of (componentDidUpdate props0 state0 table_restyled)
  ∧ ∀ cell, measurer (after (componentDidUpdate props0 state0 table_restyled)) !! cell
            = measurer table_restyled !! cell.
Proof.
  destruct (cache_cleared_iff table_restyled props0 state0) as (_ & _ & _ & Hstyles).
  destruct Hstyles as (Hcall & _ & _ & Hcache); try reflexivity.
  split; [reflexivity|]. split; [reflexivity|]. split; assumption.
Defined.

(** Three columns in a viewport of 1000 pixels, 150 at least each. *)
Lemma column_width_policy_witness :
  fields (obj (mkObj 1%positive frame)) = Some (default [] (fields frame))
  ∧ default [] (fields frame) ≠ []
  ∧ initColumns table0 props0 = Ret (renderer table0)
  ∧ getColumnWidth table0 2
    = Ret (Math_max (PrimFloat.div 1000 (length_to_number (default [] (fields frame)))) 150)
  ∧ length (renderer table0) = 3%nat.
Proof.
  assert (default [] (fields frame) ≠ []) as Hcols by (vm_compute; discriminate).
  assert (initColumns table0 props0 = Ret (renderer table0)) as Hinit by reflexivity.
  destruct (column_width_policy table0 table0 props0 (mkObj 1%positive frame)
              (default [] (fields frame)) (renderer table0)
              eq_refl eq_refl Hcols Hinit eq_refl) as (_ & Hwidth & Hlength).
  split; [reflexivity|]. split; [assumption|]. split; [assumption|]. split.
  - apply Hwidth. vm_compute. split; [intros E; discriminate E | reflexivity].
  - apply Hlength. discriminate.
Defined.

(** A dataset whose fields list is empty. *)
Lemma no_columns_placeholder_witness :
  no_columns (obj <$> data props_empty)
  ∧ initColumns table0 props_empty = Ret []
  ∧ no_columns (state_data (state (mounted props_empty)))
  ∧ render (mounted props_empty) = (Ret MissingFields, mounted props_empty, []).
Proof.
  assert (no_columns (obj <$> data props_empty)) as Hno by (right; reflexivity).
  assert (no_columns (state_data (state (mounted props_empty)))) as Hno'
    by (right; reflexivity).
  destruct (no_columns_placeholder (mounted props_empty) table0 props_empty)
    as (Hrender & Hinit).
  destruct (Hinit Hno) as (Hlayout & _).
  split; [assumption|]. split; [assumption|]. split; [assumption|].
  apply Hrender. assumption.
Defined.

(** An update with the props and the state of before. *)
Lemma unchanged_update_is_idle_witness :
  ref_changed (data (props table_measured)) (data props0) = false
  ∧ ref_changed (styles (props table_measured)) (styles props0) = false
  ∧ componentDidUpdate props0 state0 table_measured = (Ret (), table_measured, []).
Proof.
  split; [reflexivity|]. split; [reflexivity|].
  apply (unchanged_update_is_idle table_measured props0 state0); reflexivity.
Defined.

(** The malformed rule behind a rule that does not match, and behind one
    that does. *)
Lemma findStyle_malformed_witness :
  Forall (passes_over "temp_avg") [status_only]
  ∧ findStyle "temp_avg" ([status_only] ++ malformed :: [temperature])
    = Throw "SyntaxError: Invalid regular expression: Nothing to repeat"
  ∧ findStyle "temp_avg" ([status_only] ++ temperature :: [malformed])
    = findStyle "temp_avg" [temperature].
Proof.
  assert (Forall (passes_over "temp_avg") [status_only]) as Hbefore.
  { constructor; [|constructor]. eexists. split; reflexivity. }
  split; [assumption|]. split.
  - apply (findStyle_malformed "temp_avg" [status_only] malformed [temperature] Hbefore).
    reflexivity.
  - eapply (findStyle_malformed "temp_avg" [status_only] temperature [malformed] Hbefore);
      reflexivity.
Defined.
End OnJsHost.

(** ** More on the thresholds form: what is shown, typed back *)

Section ThresholdsFormRoundTrip.
Import ThresholdsForm.

Lemma digit_cases (d : Z) :
  0 ≤ d < 10 →
  d = 0 ∨ d = 1 ∨ d = 2 ∨ d = 3 ∨ d = 4 ∨ d = 5 ∨ d = 6 ∨ d = 7 ∨ d = 8 ∨ d = 9.
Proof. lia. Qed.

Lemma digit_char_facts (d : Z) :
  0 ≤ d < 10 →
  digit_value (digit_char d) = Some d
  ∧ Ascii.eqb (digit_char d) "," = false
  ∧ is_white_space (digit_char d) = false
  ∧ (∀ rest, parseInt10 (String (digit_char d) rest)
             = parse_digits (String (digit_char d) rest) 0 false).
Proof.
  intros Hd.
  destruct (digit_cases d Hd) as [->|[->|[->|[->|[->|[->|[->|[->|[->| ->]]]]]]]]];
    (split; [reflexivity|split; [reflexivity|split; [reflexivity|intros rest; reflexivity]]]).
Qed.

Lemma log2_tenth (n : Z) : 10 ≤ n → Z.log2 (n / 10) < Z.log2 n.
Proof.
  intros Hn.
  assert (n / 10 ≤ n / 2) by (apply Z.div_le_compat_l; lia).
  assert (Z.log2 (n / 10) ≤ Z.log2 (n / 2)) by (by apply Z.log2_le_mono).
  assert (Z.log2 (n / 2) = Z.log2 n - 1) as Hhalf.
  { rewrite <- Z.div2_div, Z.div2_spec, Z.log2_shiftr by lia.
    assert (1 ≤ Z.log2 n) by (apply (Z.log2_le_mono 2 n); lia). lia. }
  lia.
Qed.

Lemma digits_S (fuel : nat) (n : Z) :
  digits (S fuel) n
  = if n <? 10 then String (digit_char n) EmptyString
    else digits fuel (n / 10) +:+ String (digit_char (n mod 10)) EmptyString.
Proof. reflexivity. Qed.

Lemma parse_digits_cons (c : ascii) (rest : string) (acc : Z) (seen : bool) :
  parse_digits (String c rest) acc seen
  = match digit_value c with
    | Some d => parse_digits rest (10 * acc + d) true
    | None => if seen then Some acc else None
    end.
Proof. reflexivity. Qed.

Lemma append_cons (c : ascii) (s rest : string) :
  String c s +:+ rest = String c (s +:+ rest).
Proof. reflexivity. Qed.

Lemma append_assoc (a b c : string) : (a +:+ b) +:+ c = a +:+ (b +:+ c).
Proof. induction a as [|x a IH]; [done|]. rewrite !append_cons. by rewrite IH. Qed.

Lemma append_empty (s : string) : EmptyString +:+ s = s.
Proof. reflexivity. Qed.

(** The digits of [n], read back in front of [rest], give [n]. *)
Lemma parse_digits_digits (fuel : nat) (n : Z) (rest : string) (seen : bool) :
  0 ≤ n → Z.log2 n < Z.of_nat fuel →
  parse_digits (digits fuel n +:+ rest) 0 seen = parse_digits rest n true.
Proof.
  revert n rest seen. induction fuel as [|fuel IH]; intros n rest seen Hn Hfuel.
  - pose proof (Z.log2_nonneg n). lia.
  - rewrite digits_S. destruct (Z.ltb_spec n 10) as [Hsmall|Hbig].
    + rewrite append_cons, append_empty, parse_digits_cons.
      destruct (digit_char_facts n) as (-> & _); [lia|]. f_equal. 
    + rewrite append_assoc, IH.
      * rewrite append_cons, append_empty, parse_digits_cons.
        pose proof (Z.mod_pos_bound n 10 ltac:(lia)).
        destruct (digit_char_facts (n mod 10)) as (-> & _); [lia|].
        f_equal. pose proof (Z.div_mod n 10). lia.
      * apply Z.div_pos; lia.
      * pose proof (log2_tenth n Hbig). lia.
Qed.

Lemma append_nil_r (s : string) : s +:+ EmptyString = s.
Proof. induction s as [|c s IH]; [done|]. by rewrite append_cons, IH. Qed.

Lemma all_chars_app ok (a b : string) :
  all_chars ok (a +:+ b) = all_chars ok a && all_chars ok b.
Proof.
  induction a as [|c a IH]; [done|].
  rewrite append_cons. simpl. by rewrite IH, andb_assoc.
Qed.

(** A character of a number is no comma and no white space. *)
Lemma is_number_char_plain (c : ascii) :
  is_number_char c = true → Ascii.eqb c "," = false ∧ is_white_space c = false.
Proof.
  destruct c as [[] [] [] [] [] [] [] []]; intros E; try discriminate E; split; reflexivity.
Qed.

Lemma parseInt10_digit (c : ascii) (rest : string) :
  is_Some (digit_value c) →
  parseInt10 (String c rest) = parse_digits (String c rest) 0 false.
Proof.
  destruct c as [[] [] [] [] [] [] [] []]; intros [d E]; try discriminate E; reflexivity.
Qed.

Lemma digits_number_chars (fuel : nat) (n : Z) :
  0 ≤ n → all_chars is_number_char (digits fuel n) = true.
Proof.
  revert n. induction fuel as [|fuel IH]; intros n Hn; [done|].
  assert (∀ d, 0 ≤ d < 10 → is_number_char (digit_char d) = true) as Hdigit.
  { intros d Hd. unfold is_number_char. by destruct (digit_char_facts d Hd) as (-> & _). }
  rewrite digits_S. destruct (Z.ltb_spec n 10).
  - cbn [all_chars]. rewrite Hdigit by lia. reflexivity.
  - rewrite all_chars_app, IH by (apply Z.div_pos; lia). cbn [all_chars].
    pose proof (Z.mod_pos_bound n 10 ltac:(lia)). rewrite Hdigit by lia. reflexivity.
Qed.

(** The digits start with a digit. *)
Lemma digits_head (fuel : nat) (n : Z) :
  0 ≤ n → ∃ c rest, digits (S fuel) n = String c rest ∧ is_Some (digit_value c).
Proof.
  revert n. induction fuel as [|fuel IH]; intros n Hn; rewrite digits_S.
  - destruct (Z.ltb_spec n 10).
    + eexists _, _. split; [done|]. destruct (digit_char_facts n) as (-> & _); [lia|done].
    + cbn [digits]. rewrite append_empty.
      pose proof (Z.mod_pos_bound n 10 ltac:(lia)).
      eexists _, _. split; [done|].
      destruct (digit_char_facts (n mod 10)) as (-> & _); [lia|done].
  - destruct (Z.ltb_spec n 10).
    + eexists _, _. split; [done|]. destruct (digit_char_facts n) as (-> & _); [lia|done].
    + destruct (IH (n / 10)) as (c & rest & -> & Hc); [apply Z.div_pos; lia|].
      rewrite append_cons. eauto.
Qed.

Lemma decimal_chars (n : Z) :
  all_chars is_number_char (decimal n) = true.
Proof.
  unfold decimal. destruct (Z.ltb_spec n 0).
  - change (all_chars is_number_char (String "-" ?s))
      with (is_number_char "-" && all_chars is_number_char s).
    rewrite digits_number_chars by lia. reflexivity.
  - apply digits_number_chars. assumption.
Qed.

(** [parseInt] reads a printed integer back. *)
Lemma parseInt10_decimal (n : Z) : parseInt10 (decimal n) = Some n.
Proof.
  unfold decimal. destruct (Z.ltb_spec n 0).
  - change (parseInt10 (String "-" ?s)) with (Z.opp <$> parse_digits s 0 false).
    rewrite <- (append_nil_r (digits _ _)).
    rewrite parse_digits_digits;
      [|lia|rewrite Nat2Z.inj_succ, Z2Nat.id by apply Z.log2_nonneg; lia].
    cbn [parse_digits fmap option_fmap option_map]. f_equal. lia.
  - destruct (digits_head (Z.to_nat (Z.log2 n)) n) as (c & rest & E & Hc); [done|].
    rewrite E, parseInt10_digit, <- E by done.
    rewrite <- (append_nil_r (digits _ _)).
    rewrite parse_digits_digits; [reflexivity|lia|].
    rewrite Nat2Z.inj_succ, Z2Nat.id by apply Z.log2_nonneg. lia.
Qed.

Lemma trim_start_plain (s : string) :
  all_chars is_number_char s = true → trim_start s = s.
Proof.
  destruct s as [|c s]; [reflexivity|]. cbn [all_chars trim_start].
  intros [Hc _]%andb_true_iff.
  destruct (is_number_char_plain c Hc) as (_ & ->). reflexivity.
Qed.

Lemma trim_end_plain (s : string) :
  all_chars is_number_char s = true → trim_end s = s.
Proof.
  induction s as [|c s IH]; [reflexivity|]. cbn [all_chars trim_end].
  intros [Hc Hs]%andb_true_iff.
  rewrite IH by assumption. destruct s; [|reflexivity].
  destruct (is_number_char_plain c Hc) as (_ & ->). reflexivity.
Qed.

Lemma split_plain (s : string) :
  all_chars is_number_char s = true → split "," s = [s].
Proof.
  induction s as [|c s IH]; [reflexivity|]. cbn [all_chars split].
  intros [Hc Hs]%andb_true_iff.
  destruct (is_number_char_plain c Hc) as (-> & _). rewrite IH by assumption. reflexivity.
Qed.

Lemma split_plain_comma (s rest : string) :
  all_chars is_number_char s = true →
  split "," (s +:+ String "," rest) = s :: split "," rest.
Proof.
  induction s as [|c s IH]; [reflexivity|]. rewrite append_cons. cbn [all_chars split].
  intros [Hc Hs]%andb_true_iff.
  destruct (is_number_char_plain c Hc) as (-> & _). rewrite IH by assumption. reflexivity.
Qed.

(** The segments of a list of integers shown with [join(', ')]. *)
Lemma split_join_numbers (n : Z) (ns : list Z) :
  split "," (join ", " (map decimal (n :: ns)))
  = decimal n :: map (λ m, String " " (decimal m)) ns.
Proof.
  revert n. induction ns as [|m ns IH]; intros n.
  - cbn [map join]. apply split_plain, decimal_chars.
  - change (join ", " (map decimal (n :: m :: ns)))
      with (decimal n
            +:+ String "," (String " " (join ", " (map decimal (m :: ns))))).
    rewrite split_plain_comma by apply decimal_chars.
    f_equal.
    change (split "," (String " " ?s))
      with (match split "," s with
            | [] => [String " " EmptyString]
            | seg :: segs => String " " seg :: segs
            end).
    rewrite IH. reflexivity.
Qed.

Lemma segment_threshold_number (n : Z) :
  segment_threshold (decimal n) = n
  ∧ segment_threshold (String " " (decimal n)) = n.
Proof.
  pose proof (decimal_chars n) as Hchars.
  assert (trim (decimal n) = decimal n) as Htrim.
  { unfold trim. rewrite trim_start_plain, trim_end_plain by assumption. reflexivity. }
  unfold segment_threshold. split.
  - rewrite Htrim, parseInt10_decimal. reflexivity.
  - change (trim (String " " ?s)) with (trim s).
    rewrite Htrim, parseInt10_decimal. reflexivity.
Qed.

Lemma mapM_number_to_string (ts : list Z) (shown : list string) :
  mapM number_to_string ts = Some shown → shown = map decimal ts.
Proof.
  rewrite mapM_Some. induction 1 as [|n text ns texts Hn _ IH]; [reflexivity|].
  unfold number_to_string in Hn. destruct (is_safe_integer n); [|discriminate].
  injection Hn as <-. cbn [map]. by rewrite IH.
Qed.

(** The thresholds field shows the list with [join(', ')]; typed back
    as shown, a list of integers that is not empty comes back as it is.
    This covers every list of safe integers, the integers below 2^53 in
    size. An empty or absent list is shown as the empty text, which
    comes back as the list [0]. *)
Theorem thresholds_shown_typed_back (p : Props) :
  (∀ ts text, thresholds p = Some ts → ts ≠ [] →
              fv_thresholds (render p) = Some text →
              cd_thresholds (handleThresholdChange p text) = ts)
  ∧ (∀ ts, thresholds p = Some ts → Forall (λ n, - 2 ^ 53 < n < 2 ^ 53) ts →
           fv_thresholds (render p) = Some (join ", " (map decimal ts)))
  ∧ (thresholds p = None ∨ thresholds p = Some [] →
     fv_thresholds (render p) = Some EmptyString
     ∧ cd_thresholds (handleThresholdChange p EmptyString) = [0]).
Proof.
  split; [|split].
  - intros ts text Hts Hne Hshown.
    assert (text = join ", " (map decimal ts)) as ->.
    { unfold render in Hshown. rewrite Hts in Hshown.
      cbn [fv_thresholds default from_option id] in Hshown.
      destruct (mapM number_to_string ts) as [shown|] eqn:Eshown; [|discriminate].
      injection Hshown as <-. by rewrite (mapM_number_to_string ts shown). }
    change (cd_thresholds (handleThresholdChange p ?v))
      with (push_thresholds (length (split "," v)) (split "," v) 0 []).
    etrans; [apply (push_thresholds_from [] (split "," _) _ []); lia|].
    destruct ts as [|n ns]; [congruence|].
    rewrite split_join_numbers. cbn [app map].
    destruct (segment_threshold_number n) as (-> & _). f_equal.
    rewrite map_map. rewrite <- (map_id ns) at 2. apply map_ext.
    intros m. destruct (segment_threshold_number m) as (_ & ->). reflexivity.
  - intros ts Hts Hsafe. unfold render. rewrite Hts.
    cbn [fv_thresholds default from_option id].
    destruct (mapM number_to_string ts) as [shown|] eqn:Eshown.
    + by rewrite (mapM_number_to_string ts shown).
    + assert (is_Some (mapM number_to_string ts)) as [shown Hshown]; [|congruence].
      apply mapM_is_Some. eapply Forall_impl; [exact Hsafe|].
      intros n Hn. unfold number_to_string, is_safe_integer. cbn [compose].
      assert (2 ^ 53 = 9007199254740992) as E by reflexivity. rewrite E in *.
      destruct (Z.ltb_spec (Z.abs n) 9007199254740992); [done | lia].
  - intros [E | E]; unfold render; rewrite E; split; reflexivity.
Qed.

(** The colors select shows one entry per color, and selecting what is
    shown gives the colors back. For any selection, [handleColorsChange]
    sends the value of every selected entry, in the order of the
    selection and whatever the labels, and the thresholds of the props,
    or the empty list when the props have none. *)
Theorem colors_shown_selected_back (p : Props) :
  cc_colors (handleColorsChange p (fv_colors (render p)))
    = map Some (default [] (colors p))
  ∧ (∀ item, cc_colors (handleColorsChange p item) = map sv_value item
             ∧ length (cc_colors (handleColorsChange p item)) = length item
             ∧ (∀ i entry, item !! i = Some entry →
                           cc_colors (handleColorsChange p item) !! i
                           = Some (sv_value entry))
             ∧ cc_thresholds (handleColorsChange p item)
               = match thresholds p with Some ts => ts | None => [] end).
Proof.
  split.
  - unfold handleColorsChange, render. cbn [cc_colors fv_colors].
    rewrite map_map. reflexivity.
  - intros item. unfold handleColorsChange. cbn [cc_colors cc_thresholds].
    split; [reflexivity|]. split; [apply length_map|]. split.
    + intros i entry Hentry. rewrite list_lookup_fmap, Hentry. reflexivity.
    + by destruct (thresholds p).
Qed.
End ThresholdsFormRoundTrip.

(** ** More on the table *)

Section StyleResolution.
Context {P : Payload} {H : Host}.

(** First match wins: the style [findStyle] returns is the first rule
    whose pattern matches, the rules before it compile and do not match,
    and the title is the replaced one when the rule has a non-empty alias,
    the raw name otherwise; with no style, no rule matches and the title
    is the raw name. *)
Theorem findStyle_first_match (title : string) (rules : list ColumnStyle)
    (shown : string) (style : option ColumnStyle) :
  findStyle title rules = Ret (shown, style) →
  match style with
  | None => Forall (passes_over title) rules ∧ shown = title
  | Some s =>
      ∃ before behind regex,
        rules = before ++ s :: behind
        ∧ Forall (passes_over title) before
        ∧ stringToJsRegex (pattern s) = Ret regex
        ∧ str_match title regex = true
        ∧ (∀ a, alias s = Some a → a ≠ EmptyString →
                shown = str_replace title regex a)
        ∧ (alias s = None ∨ alias s = Some EmptyString → shown = title)
  end.
Proof.
  induction rules as [|rule rules IH]; simpl.
  - intros [= <- <-]. by split.
  - destruct (stringToJsRegex (pattern rule)) as [regex|] eqn:Eregex; [|discriminate].
    destruct (str_match title regex) eqn:Ematch.
    + intros Hret.
      assert (style = Some rule
              ∧ shown = match alias_truthy (alias rule) with
                        | Some a => str_replace title regex a
                        | None => title
                        end) as [-> ->].
      { destruct (alias_truthy (alias rule)); by injection Hret as <- <-. }
      exists [], rules, regex. repeat split; try done.
      * intros a Ha Hne. rewrite Ha. destruct a; done.
      * intros [-> | ->]; done.
    + intros Hret. specialize (IH Hret).
      assert (passes_over title rule) as Hrule by (by exists regex).
      destruct style as [s|].
      * destruct IH as (before & behind & regex' & -> & Hbefore & Hrest).
        exists (rule :: before), behind, regex'. split; [done|].
        split; [by constructor | done].
      * destruct IH as [Hall ->]. split; [by constructor | done].
Qed.

Lemma map_outcome_lookup {A B} (f : A → Outcome B) (l : list A) (r : list B) (i : nat) (x : A) :
  map_outcome f l = Ret r → l !! i = Some x → ∃ y, r !! i = Some y ∧ f x = Ret y.
Proof.
  revert r i. induction l as [|x' l IH]; intros r i; simpl; [done|].
  destruct (f x') as [y'|] eqn:Ex; [|discriminate].
  destruct (map_outcome f l) as [ys|]; [|discriminate].
  intros [= <-]. destruct i as [|i]; simpl.
  - intros [= <-]. eauto.
  - intros Hx. by apply IH.
Qed.

(** The layout follows the columns: entry [i] has the title and the
    builder of column [i], the builder made from the configuration of
    the column, the style found for its name and the theme; that builder
    renders the data cells of the column. *)
Theorem initColumns_entry (self t : Table) (p : Props) (d : Obj DataFrame)
    (rules : Obj (list ColumnStyle)) (cols : list Field) (layout : list ColumnRenderInfo)
    (i : nat) (col : Field) :
  data p = Some d → styles p = Some rules → fields (obj d) = Some cols →
  initColumns self p = Ret layout →
  renderer t = layout →
  cols !! i = Some col →
  ∃ info shown style,
    layout !! i = Some info
    ∧ findStyle (name col) (obj rules) = Ret (shown, style)
    ∧ header info = shown
    ∧ builder info = getCellBuilder (config col) style (theme (props self))
    ∧ getTableCellBuilder t (Z.of_nat i) = builder info.
Proof.
  intros Hdata Hstyles Hfields Hinit Hrenderer Hcol.
  unfold initColumns in Hinit. rewrite Hdata, Hstyles, Hfields in Hinit.
  destruct cols as [|c cols]; [done|].
  destruct (map_outcome_lookup _ _ _ i col Hinit Hcol) as (info & Hinfo & Hcolumn).
  unfold columnInfo in Hcolumn.
  destruct (findStyle (name col) (obj rules)) as [[shown style]|]; [|discriminate].
  injection Hcolumn as <-.
  eexists _, shown, style. split; [exact Hinfo|]. repeat split; try done.
  unfold getTableCellBuilder, js_index.
  destruct (Z.ltb_spec (Z.of_nat i) 0); [lia|].
  by rewrite Nat2Z.id, Hrenderer, Hinfo.
Qed.

(** The exception of the first column whose resolution throws is the
    one that leaves [initColumns]; no layout is returned. *)
Theorem initColumns_throws_at (self : Table) (p : Props) (d : Obj DataFrame)
    (rules : Obj (list ColumnStyle)) (resolved : list Field) (col : Field)
    (rest : list Field) (e : string) :
  data p = Some d → styles p = Some rules →
  fields (obj d) = Some (resolved ++ col :: rest) →
  (∀ c, c ∈ resolved → is_ret (findStyle (name c) (obj rules)) = true) →
  findStyle (name col) (obj rules) = Throw e →
  initColumns self p = Throw e.
Proof.
  intros Hdata Hstyles Hfields Hresolved Hthrow. unfold initColumns.
  rewrite Hdata, Hstyles, Hfields.
  destruct (resolved ++ col :: rest) as [|c cs] eqn:E; [by destruct resolved|].
  rewrite <- E. apply map_outcome_throw.
  - intros c' Hc'. unfold columnInfo. specialize (Hresolved c' Hc').
    by destruct (findStyle (name c') (obj rules)) as [[]|].
  - unfold columnInfo. by rewrite Hthrow.
Qed.

(** Without a style list the table is built with an empty layout: the
    grid still has one column per field, but [getColumnWidth] throws for
    every column and every data cell gets the default builder. *)
Theorem missing_styles (p : Props) (d : Obj DataFrame) (c : Field) (cols : list Field) :
  styles p = None → data p = Some d → fields (obj d) = Some (c :: cols) →
  ∃ t, constructor p = Ret t
       ∧ renderer t = []
       ∧ (∃ g, outcome_of (render t) = Ret (MultiGrid g)
               ∧ columnCount g = Z.of_nat (length (c :: cols)))
       ∧ (∀ i, is_ret (getColumnWidth t i) = false)
       ∧ (∀ i, getTableCellBuilder t i = simpleCellBuilder).
Proof.
  intros Hstyles Hdata Hfields.
  unfold constructor, initColumns. rewrite Hdata, Hstyles.
  eexists. split; [done|]. split; [done|]. split; [|split].
  - unfold render. run_method. rewrite Hdata. simpl. rewrite Hfields.
    eexists. split; [done|]. done.
  - intros i. unfold getColumnWidth, js_index. simpl. by destruct (i <? 0).
  - intros i. unfold getTableCellBuilder, js_index. simpl. by destruct (i <? 0).
Qed.
End StyleResolution.

Section Cells.
Context {P : Payload} {H : Host}.

(** A click sorts exactly when it is on the header row: on grid row 0
    with the header shown it is [doSort] of the column, on any other row,
    and on every row when the header is hidden, it does nothing. *)
Theorem onCellClick_sorts_iff (t : Table) (rowIndex columnIndex : Z) :
  0 ≤ rowIndex →
  onCellClick rowIndex columnIndex t
  = if showHeader (props t) && (rowIndex =? 0) then doSort columnIndex t
    else (Ret (), t, []).
Proof.
  intros Hrow. unfold onCellClick. run_method. unfold getCellRef. simpl.
  destruct (showHeader (props t)); simpl.
  - destruct (Z.eqb_spec rowIndex 0) as [->|Hne]; simpl.
    + by destruct (doSort columnIndex t) as [[[] ?] ?].
    + destruct (Z.ltb_spec (rowIndex + -1) 0); [lia|done].
  - destruct (Z.ltb_spec (rowIndex + 0) 0); [lia|done].
Qed.

(** The cell of a grid coordinate, for a column the dataset has: it is
    measured under the grid coordinate; on the header row it is the
    header cell of the column; elsewhere it is built by the builder of
    the column from the value at the data row, which is [undefined],
    with no exception, when the column has no such row. For a column the
    dataset does not have, the cell throws. *)
Theorem cellRenderer_cells (t : Table) (frame : DataFrame) (cols : list Field)
    (rowIndex columnIndex : Z) :
  state_data (state t) = Some frame → fields frame = Some cols →
  0 ≤ rowIndex →
  match js_index cols columnIndex with
  | None => is_ret (cellRenderer t rowIndex columnIndex) = false
  | Some col =>
      ∃ child,
        cellRenderer t rowIndex columnIndex
        = Ret {| mc_rowIndex := rowIndex; mc_columnIndex := columnIndex; mc_child := child |}
        ∧ child
          = if showHeader (props t) && (rowIndex =? 0) then
              CellHeader
                {| hc_text := name col;
                   hc_indicator :=
                     if SortBy_eqb (sortBy (state t)) (SortColumn columnIndex)
                     then Some (sortDirection (state t)) else None |}
            else
              CellBuilt (getTableCellBuilder t columnIndex)
                (js_index (values col)
                   (if showHeader (props t) then rowIndex - 1 else rowIndex))
  end.
Proof.
  intros Hdata Hfields Hrow.
  unfold cellRenderer, headerBuilder, getCellRef. simpl.
  rewrite Hdata, Hfields.
  destruct (showHeader (props t)); simpl.
  - destruct (Z.eqb_spec rowIndex 0) as [->|Hne]; simpl.
    + destruct (js_index cols columnIndex); [|done]. eexists. split; done.
    + destruct (Z.ltb_spec (rowIndex + -1) 0); [lia|].
      destruct (js_index cols columnIndex); [|done].
      eexists. split; [done|]. by replace (rowIndex + -1) with (rowIndex - 1) by lia.
  - destruct (Z.ltb_spec (rowIndex + 0) 0); [lia|].
    destruct (js_index cols columnIndex); [|done].
    eexists. split; [done|]. by replace (rowIndex + 0) with rowIndex by lia.
Qed.

(** [render] returns an element, makes no call and leaves the props, the
    state, the layout and the cache as they are; the scroll flag is down
    after it when there are columns, and untouched for the placeholder. *)
Theorem render_frame (t : Table) :
  is_ret (outcome_of (render t)) = true
  ∧ calls_of (render t) = []
  ∧ props (after (render t)) = props t
  ∧ state (after (render t)) = state t
  ∧ renderer (after (render t)) = renderer t
  ∧ measurer (after (render t)) = measurer t
  ∧ scrollToTop (after (render t))
    = match columns_of (state_data (state t)) with
      | Some _ => false
      | None => scrollToTop t
      end.
Proof.
  unfold render. run_method.
  destruct (state_data (state t)) as [frame|]; simpl; [|done].
  destruct (fields frame) as [[|c cols]|]; simpl; try done.
  destruct (scrollToTop t) eqn:E; simpl; done.
Qed.

(** The grid [render] asks for: one column per field, one row per data
    row and one more for a shown header; as many fixed columns as the
    smaller of fixedColumns and the number of columns, so no more than
    there are columns or than asked for; a fixed row exactly when the
    header is shown and fixed; no column to scroll to. *)
Theorem render_grid_bounds (t : Table) (frame : DataFrame) (c : Field) (cols : list Field) :
  state_data (state t) = Some frame → fields frame = Some (c :: cols) →
  ∃ g, outcome_of (render t) = Ret (MultiGrid g)
       ∧ columnCount g = Z.of_nat (length (c :: cols))
       ∧ 1 ≤ columnCount g
       ∧ rowCount g = length_ frame + (if showHeader (props t) then 1 else 0)
       ∧ fixedColumnCount g = Z.min (fixedColumns (props t)) (columnCount g)
       ∧ fixedColumnCount g ≤ columnCount g
       ∧ fixedColumnCount g ≤ fixedColumns (props t)
       ∧ (fixedColumns (props t) ≤ columnCount g →
          fixedColumnCount g = fixedColumns (props t))
       ∧ fixedRowCount g = (if showHeader (props t) && fixedHeader (props t) then 1 else 0)
       ∧ (0 ≤ length_ frame → fixedRowCount g ≤ rowCount g)
       ∧ scrollToColumn g = -1
       ∧ grid_width g = width (props t)
       ∧ grid_height g = height (props t).
Proof.
  intros Hdata Hfields. unfold render. run_method.
  rewrite Hdata. simpl. rewrite Hfields.
  destruct (scrollToTop t); simpl; eexists; (split; [done|]); simpl;
    destruct (showHeader (props t)), (fixedHeader (props t)); simpl;
    repeat split; lia.
Qed.

(** A fresh table has no sort, an empty cache and the flag down, shows
    the dataset of its props, and its first render asks for no scroll. *)
Theorem constructor_fresh (p : Props) (t : Table) :
  constructor p = Ret t →
  props t = p
  ∧ sortBy (state t) = SortUndefined
  ∧ sortDirection (state t) = DirUndefined
  ∧ state_data (state t) = (obj <$> data p)
  ∧ measurer t = ∅
  ∧ scrollToTop t = false
  ∧ (∀ g, outcome_of (render t) = Ret (MultiGrid g) → scrollToRow g = -1).
Proof.
  unfold constructor. destruct (initColumns (constructing p) p); [|discriminate].
  intros [= <-]. simpl. repeat split; try done.
  intros g. unfold render. run_method.
  destruct (data p) as [d|]; simpl; [|discriminate].
  destruct (fields (obj d)) as [[|c cols]|]; simpl; try discriminate.
  by intros [= <-].
Qed.
End Cells.

Section UpdateCycle.
Context {P : Payload} {H : Host}.

Lemma ref_changed_same {A} (x : option (Obj A)) : ref_changed x x = false.
Proof. destruct x as [o|]; simpl; [|done]. by rewrite Pos.eqb_refl. Qed.

Lemma sortChanged_same (st : State) : sortChanged st st = false.
Proof. by apply sortChanged_false. Qed.

Lemma configsChanged_same (p : Props) : configsChanged p p = false.
Proof. by apply configsChanged_false. Qed.

(** Whether a call is the call of [sortDataFrame]. *)
Lemma not_sort_call (c : Call) (calls : list Call) :
  (∀ by_ reverse, c ≠ CallSortDataFrame by_ reverse) →
  (∃ by_ reverse, CallSortDataFrame by_ reverse ∈ c :: calls)
  ↔ (∃ by_ reverse, CallSortDataFrame by_ reverse ∈ calls).
Proof.
  intros Hc. split; intros (by_ & reverse & Hin).
  - apply elem_of_cons in Hin as [E | Hin]; [by destruct (Hc by_ reverse) | eauto].
  - exists by_, reverse. by right.
Qed.

(** The layout is rebuilt exactly when the dataset reference or the
    style-list reference changed. Otherwise the layout is the one of
    before, whatever else changed: after a change of width or of
    minColumnWidth alone, [getColumnWidth] gives the widths computed
    from the props of before. *)
Theorem layout_rebuilt_iff (t : Table) (pp : Props) (ps : State) :
  (CallInitColumns ∈ calls_of (componentDidUpdate pp ps t)
   ↔ ref_changed (data (props t)) (data pp) = true
     ∨ ref_changed (styles (props t)) (styles pp) = true)
  ∧ (CallInitColumns ∉ calls_of (componentDidUpdate pp ps t) →
     renderer (after (componentDidUpdate pp ps t)) = renderer t
     ∧ ∀ i, getColumnWidth (after (componentDidUpdate pp ps t)) i = getColumnWidth t i)
  ∧ (∀ layout, CallInitColumns ∈ calls_of (componentDidUpdate pp ps t) →
               initColumns t (props t) = Ret layout →
               renderer (after (componentDidUpdate pp ps t)) = layout).
Proof.
  fold (dataChanged (props t) pp). fold (stylesChanged (props t) pp).
  split; [|split].
  - run_update t pp ps; rewrite ?elem_of_cons, ?elem_of_nil; intuition congruence.
  - intros Hnot.
    assert (renderer (after (componentDidUpdate pp ps t)) = renderer t) as Hsame.
    { revert Hnot. run_update t pp ps; rewrite ?elem_of_cons, ?elem_of_nil;
        intros Hnot; try done; exfalso; apply Hnot; intuition congruence. }
    split; [done|]. intros i. unfold getColumnWidth. by rewrite Hsame.
  - intros layout. run_update t pp ps; rewrite ?elem_of_cons, ?elem_of_nil;
      intros Hin Hlayout; try congruence; exfalso; intuition congruence.
Qed.

(** The data is sorted again exactly when the dataset reference or the
    sort state changed, unless the rebuild of the layout threw before.
    The sort reads the dataset of the props, the sort column of the state
    and reverses exactly for ['DESC']; when it returns, the sorted frame
    is the data of the state and the flag is up. *)
Theorem resort_iff (t : Table) (pp : Props) (ps : State) :
  let r := componentDidUpdate pp ps t in
  let reverse := SortDirection_eqb (sortDirection (state t)) DESC in
  ((∃ by_ rev_, CallSortDataFrame by_ rev_ ∈ calls_of r)
   ↔ (dataChanged (props t) pp || sortChanged (state t) ps = true
      ∧ (dataChanged (props t) pp || stylesChanged (props t) pp = true →
         is_ret (initColumns t (props t)) = true)))
  ∧ (∀ by_ rev_, CallSortDataFrame by_ rev_ ∈ calls_of r →
                 by_ = sortBy (state t) ∧ rev_ = reverse
                 ∧ scrollToTop (after r) = true)
  ∧ (∀ sorted, (∃ by_ rev_, CallSortDataFrame by_ rev_ ∈ calls_of r) →
               sortDataFrame (obj <$> data (props t)) (sortBy (state t)) reverse = Ret sorted →
               outcome_of r = Ret () ∧ state_data (state (after r)) = sorted).
Proof.
  cbv zeta. split; [|split].
  - run_update t pp ps;
      repeat (rewrite not_sort_call by (intros ? ?; discriminate));
      (split; [intros (by_ & rev_ & Hin) | intros [Hcond Hinit]]);
      rewrite ?elem_of_cons, ?elem_of_nil in *;
      try (split; [done|intros _; done]);
      try (by eexists _, _; left);
      try (by destruct Hin);
      try (specialize (Hinit eq_refl); discriminate);
      try discriminate; intuition congruence.
  - intros by_ rev_.
    run_update t pp ps; rewrite ?elem_of_cons, ?elem_of_nil; intuition congruence.
  - intros sorted (by_ & rev_ & Hin). revert Hin.
    run_update t pp ps; rewrite ?elem_of_cons, ?elem_of_nil;
      intros Hin Hsorted; try (split; congruence); exfalso; intuition congruence.
Qed.
End UpdateCycle.

Section UpdateOutcomes.
Context {P : Payload} {H : Host}.

(** An update never touches the props, the sort column or the sort
    direction, and it never lowers the scroll flag. *)
Lemma componentDidUpdate_keeps (t : Table) (pp : Props) (ps : State) :
  props (after (componentDidUpdate pp ps t)) = props t
  ∧ sortBy (state (after (componentDidUpdate pp ps t))) = sortBy (state t)
  ∧ sortDirection (state (after (componentDidUpdate pp ps t))) = sortDirection (state t)
  ∧ (scrollToTop t = true → scrollToTop (after (componentDidUpdate pp ps t)) = true).
Proof. run_update t pp ps; done. Qed.

(** When the rebuild of the layout throws, the exception leaves the
    update: the layout, the state and the scroll flag stay as they were
    and the data is not sorted again, although the cache was already
    cleared if the dataset or the configuration changed. *)
Theorem update_with_throwing_layout (t : Table) (pp : Props) (ps : State) (e : string) :
  ref_changed (data (props t)) (data pp) = true
  ∨ ref_changed (styles (props t)) (styles pp) = true →
  initColumns t (props t) = Throw e →
  let r := componentDidUpdate pp ps t in
  outcome_of r = Throw e
  ∧ renderer (after r) = renderer t
  ∧ state (after r) = state t
  ∧ scrollToTop (after r) = scrollToTop t
  ∧ (∀ c, c ∈ calls_of r → c = CallClearAll ∨ c = CallInitColumns)
  ∧ measurer (after r)
    = if dataChanged (props t) pp || configsChanged (props t) pp then ∅ else measurer t.
Proof.
  fold (dataChanged (props t) pp). fold (stylesChanged (props t) pp).
  intros Hchanged Hthrow. cbv zeta. revert Hchanged.
  run_update t pp ps; intros Hchanged; try congruence;
    try (destruct Hchanged; congruence);
    repeat split; try done; try congruence;
    try (intros c; rewrite ?elem_of_cons, ?elem_of_nil; intuition congruence).
Qed.

(** The update that follows an update finds nothing to do: after
    [componentDidUpdate] returned, its [setState] makes React call it
    again with the same props and the state of before, and that call
    makes no call and changes nothing. *)
Theorem update_settles (t : Table) (pp : Props) (ps : State) :
  outcome_of (componentDidUpdate pp ps t) = Ret () →
  componentDidUpdate (props t) (state t) (after (componentDidUpdate pp ps t))
  = (Ret (), after (componentDidUpdate pp ps t), []).
Proof.
  intros _.
  destruct (componentDidUpdate_keeps t pp ps) as (Hprops & Hby & Hdir & _).
  set (t' := after (componentDidUpdate pp ps t)) in *.
  assert (dataChanged (props t') (props t) = false) as Hdata
    by (rewrite Hprops; apply ref_changed_same).
  assert (stylesChanged (props t') (props t) = false) as Hstyles
    by (rewrite Hprops; apply ref_changed_same).
  assert (configsChanged (props t') (props t) = false) as Hconfigs
    by (rewrite Hprops; by apply configsChanged_false).
  assert (sortChanged (state t') (state t) = false) as Hsort
    by (by apply sortChanged_false).
  clearbody t'.
  run_update t' (props t) (state t); congruence.
Qed.

(** Every activation of a header changes the sort state, so the update
    that follows sorts the dataset of the props again and raises the
    scroll flag, without clearing the cache or rebuilding the layout; the
    first activation of a column sorts it in reverse. *)
Theorem header_click_resorts (t : Table) (C : Z) (sorted : option DataFrame) :
  let t1 := after (doSort C t) in
  let reverse := SortDirection_eqb (sortDirection (state t1)) DESC in
  sortDataFrame (obj <$> data (props t)) (sortBy (state t1)) reverse = Ret sorted →
  let r := componentDidUpdate (props t) (state t) t1 in
  sortChanged (state t1) (state t) = true
  ∧ outcome_of r = Ret ()
  ∧ calls_of r = [CallSortDataFrame (sortBy (state t1)) reverse; CallSetState]
  ∧ scrollToTop (after r) = true
  ∧ state_data (state (after r)) = sorted
  ∧ measurer (after r) = measurer t
  ∧ renderer (after r) = renderer t
  ∧ (sortBy (state t) ≠ SortColumn C →
     sortBy (state t1) = SortColumn C ∧ reverse = true).
Proof.
  cbv zeta. intros Hsorted.
  destruct (doSort_runs t C) as (_ & _ & Hprops & Hrenderer & Hmeasurer & _ & _).
  destruct (doSort_state t C) as (Hother & Hdesc & Hasc). cbv zeta in *.
  set (t1 := after (doSort C t)) in *.
  assert (sortChanged (state t1) (state t) = true) as Hchanged.
  { destruct (sortChanged (state t1) (state t)) eqn:E; [done|].
    apply sortChanged_false in E as [Eby Edir].
    destruct (SortBy_eqb (sortBy (state t)) (SortColumn C)) eqn:EC.
    - apply SortBy_eqb_eq in EC.
      destruct (SortDirection_eqb (sortDirection (state t)) DESC) eqn:ED.
      + apply SortDirection_eqb_eq in ED. destruct (Hdesc EC ED). congruence.
      + assert (sortDirection (state t) ≠ DESC)
          by (intros E'; apply SortDirection_eqb_eq in E'; congruence).
        destruct (Hasc EC); [done|]. congruence.
    - assert (sortBy (state t) ≠ SortColumn C)
        by (intros E'; apply SortBy_eqb_eq in E'; congruence).
      destruct Hother; [done|]. congruence. }
  assert (dataChanged (props t1) (props t) = false) as Hdata
    by (rewrite Hprops; apply ref_changed_same).
  assert (stylesChanged (props t1) (props t) = false) as Hstyles
    by (rewrite Hprops; apply ref_changed_same).
  assert (configsChanged (props t1) (props t) = false) as Hconfigs
    by (rewrite Hprops; by apply configsChanged_false).
  split; [done|].
  assert (sortBy (state t) ≠ SortColumn C →
          sortBy (state t1) = SortColumn C
          ∧ SortDirection_eqb (sortDirection (state t1)) DESC = true) as Hfirst.
  { intros Hne. destruct (Hother Hne) as [-> ->]. done. }
  rewrite <- Hprops in Hsorted. rewrite <- Hrenderer, <- Hmeasurer.
  clear Hother Hdesc Hasc Hrenderer Hmeasurer. clearbody t1.
  run_update t1 (props t) (state t); try congruence;
    injection Hsorted as ->; done.
Qed.
End UpdateOutcomes.

(** ** The further properties on the host [JsHost] *)

Section MoreOnJsHost.
Import JsHost Examples.

(** Five thresholds, one of them negative, shown and typed back. *)
Lemma thresholds_shown_typed_back_witness :
  ThresholdsForm.thresholds form_props = Some [50; 80; -12; 0; 1200]
  ∧ ThresholdsForm.fv_thresholds (ThresholdsForm.render form_props)
    = Some "50, 80, -12, 0, 1200"
  ∧ ThresholdsForm.cd_thresholds
      (ThresholdsForm.handleThresholdChange form_props "50, 80, -12, 0, 1200")
    = [50; 80; -12; 0; 1200].
Proof.
  split; [reflexivity|]. split; [reflexivity|].
  destruct (thresholds_shown_typed_back form_props) as (Hback & _).
  apply (Hback [50; 80; -12; 0; 1200]); [reflexivity | discriminate | reflexivity].
Defined.

(** The rule temp_.* behind a rule for status, on temp_avg. *)
Lemma findStyle_first_match_witness :
  findStyle "temp_avg" [status_only; temperature] = Ret ("Temperature", Some temperature)
  ∧ ∃ before behind regex,
      [status_only; temperature] = before ++ temperature :: behind
      ∧ Forall (passes_over "temp_avg") before
      ∧ stringToJsRegex (pattern temperature) = Ret regex
      ∧ str_match "temp_avg" regex = true.
Proof.
  split; [reflexivity|].
  destruct (findStyle_first_match (H:=host) "temp_avg" [status_only; temperature]
              "Temperature" (Some temperature) ltac:(reflexivity))
    as (before & behind & regex & Hrules & Hbefore & Hregex & Hmatch & _).
  exists before, behind, regex.
  split; [assumption|]. split; [assumption|]. split; assumption.
Defined.

(** The second column of [table0]. *)
Lemma initColumns_entry_witness :
  initColumns table0 props0 = Ret (renderer table0)
  ∧ default [] (fields frame) !! 1%nat = Some (field "temp_max" [5; 4; 6])
  ∧ ∃ info shown style,
      renderer table0 !! 1%nat = Some info
      ∧ findStyle "temp_max" [temperature] = Ret (shown, style)
      ∧ header info = shown.
Proof.
  split; [reflexivity|]. split; [reflexivity|].
  destruct (initColumns_entry (H:=host) table0 table0 props0 (mkObj 1%positive frame)
              (mkObj 2%positive [temperature]) (default [] (fields frame))
              (renderer table0) 1%nat (field "temp_max" [5; 4; 6])
              ltac:(reflexivity) ltac:(reflexivity) ltac:(reflexivity) ltac:(reflexivity) ltac:(reflexivity) ltac:(reflexivity))
    as (info & shown & style & Hinfo & Hfind & Hheader & _).
  exists info, shown, style.
  split; [assumption|]. split; assumption.
Defined.

(** The first column resolves, the second meets the malformed rule. *)
Lemma initColumns_throws_at_witness :
  findStyle "temp_max" [avg_only; malformed]
  = Throw "SyntaxError: Invalid regular expression: Nothing to repeat"
  ∧ initColumns table0 props_late_throw
    = Throw "SyntaxError: Invalid regular expression: Nothing to repeat".
Proof.
  split; [reflexivity|].
  apply (initColumns_throws_at (H:=host) table0 props_late_throw (mkObj 1%positive frame)
           (mkObj 7%positive [avg_only; malformed])
           [field "temp_avg" [1; 3; 2]] (field "temp_max" [5; 4; 6])
           [field "status" [0; 1; 0]]); try reflexivity.
  intros c Hc. apply list_elem_of_singleton in Hc. rewrite Hc. reflexivity.
Defined.

(** [props0] without its style rules. *)
Lemma missing_styles_witness :
  styles props_no_styles = None
  ∧ ∃ t, constructor props_no_styles = Ret t
         ∧ renderer t = []
         ∧ is_ret (getColumnWidth t 0) = false.
Proof.
  split; [reflexivity|].
  destruct (missing_styles (H:=host) props_no_styles (mkObj 1%positive frame)
              (field "temp_avg" [1; 3; 2])
              [field "temp_max" [5; 4; 6]; field "status" [0; 1; 0]]
              ltac:(reflexivity) ltac:(reflexivity) ltac:(reflexivity))
    as (t & Hmounted & Hlayout & _ & Hwidth & _).
  exists t. split; [assumption|]. split; [assumption|]. apply Hwidth.
Defined.

(** A click on the header of column 1 of [table0], and one below it. *)
Lemma onCellClick_sorts_iff_witness :
  onCellClick 0 1 table0 = doSort 1 table0
  ∧ onCellClick 2 1 table0 = (Ret (), table0, []).
Proof.
  split.
  - apply (onCellClick_sorts_iff (P:=payload) table0 0 1). lia.
  - apply (onCellClick_sorts_iff (P:=payload) table0 2 1). lia.
Defined.

(** The cell of grid row 4 in column 0 of [table0], which has three rows. *)
Lemma cellRenderer_cells_witness :
  0 ≤ 4
  ∧ ∃ child,
      cellRenderer table0 4 0
      = Ret {| mc_rowIndex := 4; mc_columnIndex := 0; mc_child := child |}
      ∧ child = CellBuilt (getTableCellBuilder table0 0) None.
Proof.
  assert (0 ≤ 4) as Hrow by lia. split; [assumption|].
  exact (cellRenderer_cells (P:=payload) table0 frame (default [] (fields frame)) 4 0
           ltac:(reflexivity) ltac:(reflexivity) Hrow).
Defined.

(** The grid of [table0]. *)
Lemma render_grid_bounds_witness :
  ∃ g, outcome_of (render table0) = Ret (MultiGrid g)
       ∧ columnCount g = 3 ∧ rowCount g = 4
       ∧ fixedColumnCount g = 0 ∧ fixedRowCount g = 1.
Proof.
  destruct (render_grid_bounds (P:=payload) table0 frame (field "temp_avg" [1; 3; 2])
              [field "temp_max" [5; 4; 6]; field "status" [0; 1; 0]] ltac:(reflexivity) ltac:(reflexivity))
    as (g & Hg & Hcolumns & _ & Hrows & _ & _ & _ & Hfixed & Hrow & _).
  exists g. split; [assumption|]. split; [assumption|]. split; [assumption|].
  split; [|assumption]. apply Hfixed. rewrite Hcolumns. vm_compute. discriminate.
Defined.

(** [table0] is what the constructor gives for [props0]. *)
Lemma constructor_fresh_witness :
  constructor props0 = Ret table0
  ∧ sortBy (state table0) = SortUndefined
  ∧ measurer table0 = ∅
  ∧ scrollToTop table0 = false.
Proof.
  assert (constructor props0 = Ret table0) as Hmounted by reflexivity.
  destruct (constructor_fresh (H:=host) props0 table0 Hmounted)
    as (_ & Hby & _ & _ & Hcache & Hflag & _).
  split; [assumption|]. split; [assumption|]. split; assumption.
Defined.

(** [table0] receives a viewport twice as wide: the widths stay. *)
Lemma layout_rebuilt_iff_witness :
  (CallInitColumns ∉ calls_of (componentDidUpdate props0 state0 table_resized))
  ∧ width (props table_resized) = 2000%float
  ∧ ∀ i, getColumnWidth (after (componentDidUpdate props0 state0 table_resized)) i
         = getColumnWidth table0 i.
Proof.
  assert (CallInitColumns ∉ calls_of (componentDidUpdate props0 state0 table_resized))
    as Hnot.
  { assert (calls_of (componentDidUpdate props0 state0 table_resized) = []) as ->
      by reflexivity.
    apply not_elem_of_nil. }
  split; [assumption|]. split; [reflexivity|].
  destruct (layout_rebuilt_iff (H:=host) table_resized props0 state0) as (_ & Hsame & _).
  destruct (Hsame Hnot) as (_ & Hwidths). exact Hwidths.
Defined.

(** The update after the first click on column 1 of [table0]. *)
Lemma resort_iff_witness :
  CallSortDataFrame (SortColumn 1) true
    ∈ calls_of (componentDidUpdate props0 state0 table_sorted)
  ∧ scrollToTop (after (componentDidUpdate props0 state0 table_sorted)) = true.
Proof.
  assert (CallSortDataFrame (SortColumn 1) true
            ∈ calls_of (componentDidUpdate props0 state0 table_sorted)) as Hin.
  { assert (calls_of (componentDidUpdate props0 state0 table_sorted)
            = [CallSortDataFrame (SortColumn 1) true; CallSetState]) as ->
      by reflexivity.
    left. }
  split; [assumption|].
  destruct (resort_iff (H:=host) table_sorted props0 state0) as (_ & Hcall & _).
  destruct (Hcall _ _ Hin) as (_ & _ & Hflag). exact Hflag.
Defined.

(** [table0] receives rules of which the first does not compile. *)
Lemma update_with_throwing_layout_witness :
  ref_changed (styles (props table_bad_styles)) (styles props0) = true
  ∧ outcome_of (componentDidUpdate props0 state0 table_bad_styles)
    = Throw "SyntaxError: Invalid regular expression: Nothing to repeat"
  ∧ renderer (after (componentDidUpdate props0 state0 table_bad_styles))
    = renderer table_bad_styles.
Proof.
  assert (ref_changed (styles (props table_bad_styles)) (styles props0) = true)
    as Hstyles by reflexivity.
  split; [assumption|].
  destruct (update_with_throwing_layout (H:=host) table_bad_styles props0 state0
              "SyntaxError: Invalid regular expression: Nothing to repeat"
              (or_intror Hstyles) ltac:(reflexivity))
    as (Hthrow & Hlayout & _).
  split; assumption.
Defined.

(** The update after the one that gave [table_restyled] its new rules. *)
Lemma update_settles_witness :
  outcome_of (componentDidUpdate props0 state0 table_restyled) = Ret ()
  ∧ calls_of (componentDidUpdate (props table_restyled) (state table_restyled)
                (after (componentDidUpdate props0 state0 table_restyled)))
    = [].
Proof.
  assert (outcome_of (componentDidUpdate props0 state0 table_restyled) = Ret ())
    as Hret by reflexivity.
  split; [assumption|].
  rewrite (update_settles (H:=host) table_restyled props0 state0 Hret). reflexivity.
Defined.

(** The first click on the header of column 1 of [table0]. *)
Lemma header_click_resorts_witness :
  calls_of (componentDidUpdate (props table0) (state table0) (after (doSort 1 table0)))
  = [CallSortDataFrame (SortColumn 1) true; CallSetState]
  ∧ scrollToTop
      (after (componentDidUpdate (props table0) (state table0) (after (doSort 1 table0))))
    = true.
Proof.
  destruct (header_click_resorts (H:=host) table0 1
              (Some {| fields :=
                         Some [field "temp_avg" [2; 1; 3]; field "temp_max" [6; 5; 4];
                               field "status" [0; 0; 1]];
                       length_ := 3 |})
              ltac:(reflexivity))
    as (_ & _ & Hcalls & Hflag & _).
  split; assumption.
Defined.

(** A table whose flag is up is rendered twice. *)
Lemma render_twice_witness :
  scrollToTop table_flagged = true
  ∧ ∃ g, outcome_of (render (after (render table_flagged))) = Ret (MultiGrid g)
         ∧ scrollToRow g = -1.
Proof.
  split; [reflexivity|].
  exact (render_twice (P:=payload) table_flagged frame (field "temp_avg" [1; 3; 2])
           [field "temp_max" [5; 4; 6]; field "status" [0; 1; 0]] ltac:(reflexivity) ltac:(reflexivity)).
Defined.

(** The update after the first click on column 1 of [table0]. *)
Lemma componentDidUpdate_scrollToTop_witness :
  is_ret (initColumns table_sorted (props table_sorted)) = true
  ∧ scrollToTop (after (componentDidUpdate props0 state0 table_sorted)) = true.
Proof.
  assert (is_ret (initColumns table_sorted (props table_sorted)) = true) as Hinit
    by reflexivity.
  split; [assumption|].
  rewrite (componentDidUpdate_scrollToTop (H:=host) table_sorted props0 state0 Hinit).
  reflexivity.
Defined.

(** The header of the sorted column 1. *)
Lemma headerBuilder_shows_witness :
  headerBuilder table_sorted 0 1
  = Ret {| hc_text := "temp_max"; hc_indicator := Some DESC |}
  ∧ ∃ frame' cols col,
      state_data (state table_sorted) = Some frame' ∧ fields frame' = Some cols
      ∧ js_index cols 1 = Some col
      ∧ "temp_max" = name col.
Proof.
  split; [reflexivity|].
  destruct (headerBuilder_shows (P:=payload) table_sorted 0 1
              {| hc_text := "temp_max"; hc_indicator := Some DESC |} ltac:(reflexivity))
    as (frame' & cols & col & Hdata & Hfields & Hcol & Htext & _).
  exists frame', cols, col.
  split; [assumption|]. split; [assumption|]. split; assumption.
Defined.
End MoreOnJsHost.

(** ** Datasets without columns and updates without a change, in full *)

Section UpdateGuards.
Context {P : Payload} {H : Host}.

(** C8, amended: a dataset with no columns, its fields list empty or
    missing, is rendered as the "Missing Fields" placeholder, with no
    exception; [render] makes no call and leaves the layout, the cache
    and the rest of the instance as they were, and [initColumns] builds
    no layout for it. The update is not guarded: when such a dataset
    arrives as a new reference, [componentDidUpdate] clears the cache,
    calls [initColumns], which gives the empty layout, and calls
    [sortDataFrame] with the scroll flag raised. *)
Theorem no_columns_render_and_update (t self : Table) (p pp : Props) (ps : State) :
  (no_columns (state_data (state t)) → render t = (Ret MissingFields, t, []))
  ∧ (no_columns (obj <$> data p) →
     initColumns self p = Ret []
     ∧ ∃ t0, constructor p = Ret t0
             ∧ renderer t0 = [] ∧ measurer t0 = ∅
             ∧ render t0 = (Ret MissingFields, t0, []))
  ∧ (no_columns (obj <$> data (props t)) →
     ref_changed (data (props t)) (data pp) = true →
     CallClearAll ∈ calls_of (componentDidUpdate pp ps t)
     ∧ measurer (after (componentDidUpdate pp ps t)) = ∅
     ∧ CallInitColumns ∈ calls_of (componentDidUpdate pp ps t)
     ∧ renderer (after (componentDidUpdate pp ps t)) = []
     ∧ CallSortDataFrame (sortBy (state t))
         (SortDirection_eqb (sortDirection (state t)) DESC)
         ∈ calls_of (componentDidUpdate pp ps t)
     ∧ scrollToTop (after (componentDidUpdate pp ps t)) = true).
Proof.
  destruct (no_columns_placeholder t self p) as (Hrender & Hbuild).
  split; [exact Hrender|]. split; [exact Hbuild|].
  intros Hno Hdata.
  destruct (no_columns_placeholder t t (props t)) as (_ & Hself).
  destruct (Hself Hno) as (Hinit & _).
  fold (dataChanged (props t) pp) in Hdata. revert Hinit.
  run_update t pp ps; intros Hinit; try congruence;
    injection Hinit as ->;
    rewrite ?elem_of_cons, ?elem_of_nil; intuition congruence.
Qed.

(** C9, amended: an update in which the dataset reference, the
    style-rule-list reference and the sort state, column and direction,
    are all unchanged rebuilds no layout, sorts nothing and does not
    raise the scroll flag; it returns, and the layout, the state and the
    flag are as they were. It clears the measurement cache exactly when
    showHeader, fixedColumns or fixedHeader changed; with these
    unchanged too it makes no call and leaves the instance as it was. *)
Theorem unchanged_update_actions (t : Table) (pp : Props) (ps : State) :
  ref_changed (data (props t)) (data pp) = false →
  ref_changed (styles (props t)) (styles pp) = false →
  sortBy (state t) = sortBy ps →
  sortDirection (state t) = sortDirection ps →
  outcome_of (componentDidUpdate pp ps t) = Ret ()
  ∧ (CallInitColumns ∉ calls_of (componentDidUpdate pp ps t))
  ∧ renderer (after (componentDidUpdate pp ps t)) = renderer t
  ∧ (∀ by_ reverse,
       CallSortDataFrame by_ reverse ∉ calls_of (componentDidUpdate pp ps t))
  ∧ (CallSetState ∉ calls_of (componentDidUpdate pp ps t))
  ∧ state (after (componentDidUpdate pp ps t)) = state t
  ∧ scrollToTop (after (componentDidUpdate pp ps t)) = scrollToTop t
  ∧ (CallClearAll ∈ calls_of (componentDidUpdate pp ps t)
     ↔ showHeader (props t) ≠ showHeader pp
       ∨ fixedColumns (props t) ≠ fixedColumns pp
       ∨ fixedHeader (props t) ≠ fixedHeader pp)
  ∧ (CallClearAll ∈ calls_of (componentDidUpdate pp ps t) →
     measurer (after (componentDidUpdate pp ps t)) = ∅)
  ∧ (showHeader (props t) = showHeader pp →
     fixedColumns (props t) = fixedColumns pp →
     fixedHeader (props t) = fixedHeader pp →
     componentDidUpdate pp ps t = (Ret (), t, [])).
Proof.
  intros Hdata Hstyles Hby Hdir.
  assert (sortChanged (state t) ps = false) as Hsort by (by apply sortChanged_false).
  fold (dataChanged (props t) pp) in Hdata.
  fold (stylesChanged (props t) pp) in Hstyles.
  pose proof (configsChanged_true (props t) pp) as Hconfigs.
  pose proof (configsChanged_false (props t) pp) as Hsame.
  assert (componentDidUpdate pp ps t
          = if configsChanged (props t) pp
            then (Ret (),
                  {| props := props t; state := state t; renderer := renderer t;
                     measurer := ∅; scrollToTop := scrollToTop t |},
                  [CallClearAll])
            else (Ret (), t, [])) as Hrun.
  { clear Hconfigs Hsame. run_update t pp ps; congruence. }
  rewrite Hrun.
  destruct (configsChanged (props t) pp) eqn:Echanged;
    cbn [outcome_of after calls_of fst snd]; split_and!; try done;
    try (rewrite ?elem_of_cons, ?elem_of_nil; intuition congruence);
    try (intros by_ reverse; rewrite ?elem_of_cons, ?elem_of_nil; intuition congruence).
Qed.
End UpdateGuards.

Section UpdateGuardsOnJsHost.
Import JsHost Examples.

(** C8 as stated fails: a dataset without columns arrives, and the
    update clears the cache, where a cell was measured, calls
    [initColumns] and calls [sortDataFrame]. *)
Lemma empty_dataset_update_works :
  no_columns (obj <$> data (props table_emptied))
  ∧ calls_of (componentDidUpdate props0 state0 table_emptied)
    = [CallClearAll; CallInitColumns; CallSortDataFrame SortUndefined false; CallSetState]
  ∧ measurer table_emptied !! (1, 0) = Some {| cell_height := 30; cell_width := 333 |}
  ∧ measurer (after (componentDidUpdate props0 state0 table_emptied)) !! (1, 0) = None.
Proof.
  split; [right; reflexivity|]. vm_compute. repeat split.
Qed.

(** A dataset whose fields list is empty, rendered, and arriving. *)
Lemma no_columns_render_and_update_witness :
  no_columns (obj <$> data (props table_emptied))
  ∧ ref_changed (data (props table_emptied)) (data props0) = true
  ∧ no_columns (state_data (state (mounted props_empty)))
  ∧ render (mounted props_empty) = (Ret MissingFields, mounted props_empty, [])
  ∧ CallClearAll ∈ calls_of (componentDidUpdate props0 state0 table_emptied)
  ∧ renderer (after (componentDidUpdate props0 state0 table_emptied)) = [].
Proof.
  assert (no_columns (obj <$> data (props table_emptied))) as Hno
    by (right; reflexivity).
  assert (ref_changed (data (props table_emptied)) (data props0) = true) as Hdata
    by reflexivity.
  assert (no_columns (state_data (state (mounted props_empty)))) as Hno'
    by (right; reflexivity).
  destruct (no_columns_render_and_update (H:=host) (mounted props_empty) table0
              props_empty props0 state0) as (Hrender & _ & _).
  destruct (no_columns_render_and_update (H:=host) table_emptied table0
              props_empty props0 state0) as (_ & _ & Hupdate).
  destruct (Hupdate Hno Hdata) as (Hclear & _ & _ & Hlayout & _).
  split; [assumption|]. split; [assumption|]. split; [assumption|].
  split; [apply Hrender; assumption|]. split; assumption.
Defined.

(** [table_measured] with the header hidden, and with nothing changed. *)
Lemma unchanged_update_actions_witness :
  ref_changed (data (props table_measured)) (data props_no_header) = false
  ∧ ref_changed (styles (props table_measured)) (styles props_no_header) = false
  ∧ (CallInitColumns ∉ calls_of (componentDidUpdate props_no_header state0 table_measured))
  ∧ scrollToTop (after (componentDidUpdate props_no_header state0 table_measured))
    = scrollToTop table_measured
  ∧ CallClearAll ∈ calls_of (componentDidUpdate props_no_header state0 table_measured)
  ∧ componentDidUpdate props0 state0 table_measured = (Ret (), table_measured, []).
Proof.
  split; [reflexivity|]. split; [reflexivity|].
  destruct (unchanged_update_actions (H:=host) table_measured props_no_header state0)
    as (_ & Hlayout & _ & _ & _ & _ & Hflag & Hclear & _); try reflexivity.
  destruct (unchanged_update_actions (H:=host) table_measured props0 state0)
    as (_ & _ & _ & _ & _ & _ & _ & _ & _ & Hidle); try reflexivity.
  split; [assumption|]. split; [assumption|]. split.
  - apply Hclear. left. discriminate.
  - apply Hidle; reflexivity.
Defined.
End UpdateGuardsOnJsHost.
